(** * Natural-Emotion-Processor: feature records, differential engine, assembler

    A shallow embedding of [src/main.py], [src/TextAnalyser.py] and
    [src/AudioAnalyser.py].

    - Python [float] is IEEE-754 binary64, modelled by [spec_float] with
      precision 53 and maximal exponent 1024; [int] is [Z]; [bool] is a
      subclass of [int].
    - Python [str] is modelled by [string]; a character is a code point
      below 256.
    - A [dict] is an association list in insertion order; writes go through
      [dict_set], reads through [dict_get] (first binding).
    - A [namedtuple] class is its list of field names, an instance a
      dictionary from the fields to their values; creating the class runs
      the checks of [collections.namedtuple] on the names.
    - Exceptions are values of [exn]; code that may raise lives in [result].
    - Third-party services (NLTK, pyspellchecker, fuzzywuzzy, Praat, librosa,
      the file system) are fields of the records [TextServices] and
      [AudioServices]. *)

From Stdlib Require Import ZArith List String Ascii Bool Lia.
From Stdlib Require Import Floats.SpecFloat.
From Stdlib Require Import DecimalString.
Import ListNotations.

Local Open Scope string_scope.
Local Open Scope Z_scope.

(** ** Exceptions and the error monad *)

Inductive exn_kind : Type :=
| TypeError
| AttributeError
| KeyError
| ValueError
| FileNotFoundError
| OverflowError
| ZeroDivisionError
| ExternalError.

(** An exception: its class and [str(e)].  The messages built by the
    sources are literal; the interpreter's own follow CPython 3.11, abridged
    where they would name a class or an attribute. *)
Record exn : Type := Exn { exn_type : exn_kind; exn_str : string }.

Inductive result (A : Type) : Type :=
| Ret (a : A)
| Raise (e : exn).

Arguments Ret {A} a.
Arguments Raise {A} e.

Definition bind {A B : Type} (c : result A) (k : A -> result B) : result B :=
  match c with
  | Ret a => k a
  | Raise e => Raise e
  end.

Declare Scope py_scope.
Delimit Scope py_scope with py.
Notation "x <- c ;; k" := (bind c (fun x => k))
  (at level 61, c at next level, right associativity) : py_scope.
Local Open Scope py_scope.

Definition returns {A : Type} (c : result A) : bool :=
  match c with Ret _ => true | Raise _ => false end.

(** ** Binary64 floats *)

Module Float.

Definition prec : Z := 53.
Definition emax : Z := 1024.

Definition float : Type := spec_float.

Definition sub : float -> float -> float := SFsub prec emax.
Definition mul : float -> float -> float := SFmul prec emax.
Definition div : float -> float -> float := SFdiv prec emax.
Definition opp : float -> float := SFopp.
Definition eqb : float -> float -> bool := SFeqb.
Definition ltb : float -> float -> bool := SFltb.

Definition is_nan (x : float) : bool :=
  match x with S754_nan => true | _ => false end.

Definition is_zero (x : float) : bool :=
  match x with S754_zero _ => true | _ => false end.

Definition is_finite (x : float) : bool :=
  match x with S754_zero _ | S754_finite _ _ _ => true | _ => false end.

Definition zero : float := S754_zero false.

(** The double nearest to an integer (ties to even); an infinity when the
    integer is out of range. *)
Definition of_Z (z : Z) : float := binary_normalize prec emax z 0 false.

Definition set_sign (s : bool) (x : float) : float :=
  match x with
  | S754_zero _ => S754_zero s
  | S754_infinity _ => S754_infinity s
  | S754_nan => S754_nan
  | S754_finite _ m e => S754_finite s m e
  end.

(** Nearest integer to [num / den], ties to even, for [0 <= num], [0 < den]. *)
Definition round_half_even (num den : Z) : Z :=
  let q := num / den in
  let r := num mod den in
  match (2 * r ?= den) with
  | Lt => q
  | Gt => q + 1
  | Eq => if Z.even q then q else q + 1
  end.

(** [float.__round__(x, ndigits)] for [0 <= ndigits]: NaN and the infinities
    round to themselves; a finite [x] is rounded, on its exact value, to the
    nearest multiple of [10^-ndigits] (ties to even), and that decimal is
    converted back to the nearest double; the sign of [x] is kept. *)
Definition round (x : float) (ndigits : Z) : float :=
  match x with
  | S754_finite s m e =>
      let p := 10 ^ ndigits in
      let n := match e with
               | Zneg pe => round_half_even (Zpos m * p) (2 ^ Zpos pe)
               | _ => Zpos m * 2 ^ e * p
               end in
      match n, p with
      | Zpos n', Zpos p' =>
          set_sign s (div (S754_finite false n' 0) (S754_finite false p' 0))
      | _, _ => S754_zero s
      end
  | _ => x
  end.

End Float.

Abbreviation float := Float.float.

(** Float literals used by the sources and the scenarios. *)
Definition f_0_0 : float := Float.zero.
Definition f_1_0 : float := S754_finite false 4503599627370496 (-52).
Definition f_100_0 : float := S754_finite false 7036874417766400 (-46).
Definition f_0_8 : float := S754_finite false 7205759403792794 (-53).
Definition f_0_4 : float := S754_finite false 7205759403792794 (-54).
Definition f_180_0 : float := S754_finite false 6333186975989760 (-45).
Definition f_195_5 : float := S754_finite false 6878544743366656 (-45).
Definition f_15_5 : float := S754_finite false 8725724278030336 (-49).
Definition f_inf : float := S754_infinity false.
Definition f_nan : float := S754_nan.


(** ** Strings *)

Module Str.

Definition code (c : ascii) : Z := Z.of_N (N_of_ascii c).

Definition between (lo hi x : Z) : bool := (lo <=? x) && (x <=? hi).

(** [c.isupper()] *)
Definition isupper (c : ascii) : bool :=
  let x := code c in
  between 65 90 x || between 192 214 x || between 216 222 x.

(** [c.lower()] *)
Definition lower_char (c : ascii) : ascii :=
  if isupper c then ascii_of_N (Z.to_N (code c + 32)) else c.

Fixpoint lower (s : string) : string :=
  match s with
  | EmptyString => EmptyString
  | String c s' => String (lower_char c) (lower s')
  end.

Definition isalnum_char (c : ascii) : bool :=
  let x := code c in
  between 48 57 x || between 65 90 x || between 97 122 x
  || (x =? 170) || between 178 179 x || (x =? 181) || between 185 186 x
  || between 188 190 x || between 192 214 x || between 216 246 x
  || between 248 255 x.

Fixpoint all_chars (p : ascii -> bool) (s : string) : bool :=
  match s with
  | EmptyString => true
  | String c s' => p c && all_chars p s'
  end.

(** [s.isalnum()]: every character is alphanumeric and there is at least
    one. *)
Definition isalnum (s : string) : bool :=
  match s with
  | EmptyString => false
  | _ => all_chars isalnum_char s
  end.

Definition isspace_char (c : ascii) : bool :=
  let x := code c in
  between 9 13 x || between 28 32 x || (x =? 133) || (x =? 160).

Fixpoint lstrip (s : string) : string :=
  match s with
  | String c s' => if isspace_char c then lstrip s' else s
  | EmptyString => EmptyString
  end.

Fixpoint rstrip (s : string) : string :=
  match s with
  | EmptyString => EmptyString
  | String c s' =>
      match rstrip s' with
      | EmptyString => if isspace_char c then EmptyString else String c EmptyString
      | r => String c r
      end
  end.

Definition strip (s : string) : string := rstrip (lstrip s).

(** [string.punctuation] *)
Definition ispunct (c : ascii) : bool :=
  let x := code c in
  between 33 47 x || between 58 64 x || between 91 96 x || between 123 126 x.

Definition chars (s : string) : list ascii := list_ascii_of_string s.

Definition len (s : string) : Z := Z.of_nat (String.length s).

(** The number of characters of [s] that satisfy [p]. *)
Definition count_chars (p : ascii -> bool) (s : string) : Z :=
  Z.of_nat (List.length (filter p (chars s))).

(** [len(re.findall(re.escape(pat), s))] for a non-empty [pat]: occurrences
    from left to right, without overlap.  [skip] characters are still covered
    by the last match. *)
Fixpoint count_sub (pat s : string) (skip : nat) : Z :=
  match s with
  | EmptyString => 0
  | String _ s' =>
      match skip with
      | S k => count_sub pat s' k
      | O =>
          if String.prefix pat s
          then 1 + count_sub pat s' (Nat.pred (String.length pat))
          else count_sub pat s' 0
      end
  end.

(** The number of maximal runs of characters satisfying [p]; [inside] tells
    whether the previous character was in a run. *)
Fixpoint count_runs (p : ascii -> bool) (s : string) (inside : bool) : Z :=
  match s with
  | EmptyString => 0
  | String c s' =>
      if p c then (if inside then 0 else 1) + count_runs p s' true
      else count_runs p s' false
  end.

(** [s.isidentifier()]: a letter or an underscore, then letters, digits,
    underscores and the middle dot. *)
Definition isidentifier_start (c : ascii) : bool :=
  let x := code c in
  between 65 90 x || (x =? 95) || between 97 122 x
  || (x =? 170) || (x =? 181) || (x =? 186)
  || between 192 214 x || between 216 246 x || between 248 255 x.

Definition isidentifier_continue (c : ascii) : bool :=
  isidentifier_start c || between 48 57 (code c) || (code c =? 183).

Definition isidentifier (s : string) : bool :=
  match s with
  | EmptyString => false
  | String c s' => isidentifier_start c && all_chars isidentifier_continue s'
  end.

(** [s.startswith(prefix)] *)
Definition startswith (prefix s : string) : bool := String.prefix prefix s.

Fixpoint contains_char (x : ascii) (s : string) : bool :=
  match s with
  | EmptyString => false
  | String c s' => Ascii.eqb c x || contains_char x s'
  end.

Definition hex_digit (n : Z) : ascii :=
  ascii_of_N (Z.to_N (if n <? 10 then 48 + n else 87 + n)).

(** One character of [repr(s)], between quotes [q]. *)
Definition repr_char (q c : ascii) : string :=
  let x := code c in
  if Ascii.eqb c q || (x =? 92) then String "\"%char (String c EmptyString)
  else if x =? 9 then "\t"
  else if x =? 10 then "\n"
  else if x =? 13 then "\r"
  else if (x <? 32) || between 127 160 x || (x =? 173)
  then "\x" ++ String (hex_digit (x / 16))
                 (String (hex_digit (x mod 16)) EmptyString)
  else String c EmptyString.

Fixpoint repr_chars (q : ascii) (s : string) : string :=
  match s with
  | EmptyString => EmptyString
  | String c s' => repr_char q c ++ repr_chars q s'
  end.

(** [repr(s)]: single quotes, unless [s] has a single quote and no double
    quote. *)
Definition repr (s : string) : string :=
  let q := if contains_char "'"%char s && negb (contains_char "034"%char s)
           then "034"%char else "'"%char in
  String q (repr_chars q s ++ String q EmptyString).

End Str.

(** ** Python values *)

(** What a slot of a feature record, or an entry of a metric mapping, can
    hold. *)
#[local] Unset Elimination Schemes.
Inductive value : Type :=
| VNone
| VBool (b : bool)
| VInt (z : Z)
| VFloat (f : float)
| VStr (s : string)
| VList (l : list value)
| VDict (d : list (string * value)).
#[local] Set Elimination Schemes.

(** ** Dictionaries, in insertion order *)

Definition dict (A : Type) : Type := list (string * A).

Fixpoint dict_get {A : Type} (k : string) (d : dict A) : option A :=
  match d with
  | [] => None
  | (k', v) :: d' => if String.eqb k k' then Some v else dict_get k d'
  end.

Definition dict_mem {A : Type} (k : string) (d : dict A) : bool :=
  match dict_get k d with Some _ => true | None => false end.

(** [d[k] = v]: an existing key keeps its position, a new key goes last. *)
Fixpoint dict_set {A : Type} (k : string) (v : A) (d : dict A) : dict A :=
  match d with
  | [] => [(k, v)]
  | (k', v') :: d' =>
      if String.eqb k k' then (k', v) :: d' else (k', v') :: dict_set k v d'
  end.

Definition dict_keys {A : Type} (d : dict A) : list string := map fst d.

Definition str_in (s : string) (l : list string) : bool :=
  existsb (String.eqb s) l.

(** [d[key]]: the message of a [KeyError] is the [repr] of the key. *)
Definition getitem {A : Type} (d : dict A) (key : string) : result A :=
  match dict_get key d with
  | Some v => Ret v
  | None => Raise (Exn KeyError (Str.repr key))
  end.

(** ** Numbers *)

(** The values for which [isinstance(v, (int, float))] holds, with [bool]
    read as the integer it is. *)
Inductive num : Type :=
| NInt (z : Z)
| NFloat (f : float).

Definition as_num (v : value) : option num :=
  match v with
  | VBool b => Some (NInt (if b then 1 else 0))
  | VInt z => Some (NInt z)
  | VFloat f => Some (NFloat f)
  | _ => None
  end.

Definition is_numeric (v : value) : bool :=
  match as_num v with Some _ => true | None => false end.

(** [float(z)] for an [int] operand of mixed arithmetic. *)
Definition float_of_int (z : Z) : result float :=
  let f := Float.of_Z z in
  if Float.is_finite f then Ret f
  else Raise (Exn OverflowError "int too large to convert to float").

Definition num_sub (a b : num) : result num :=
  match a, b with
  | NInt x, NInt y => Ret (NInt (x - y))
  | NFloat x, NFloat y => Ret (NFloat (Float.sub x y))
  | NInt x, NFloat y => fx <- float_of_int x ;; Ret (NFloat (Float.sub fx y))
  | NFloat x, NInt y => fy <- float_of_int y ;; Ret (NFloat (Float.sub x fy))
  end.

(** [type(v).__name__] *)
Definition type_name (v : value) : string :=
  match v with
  | VNone => "NoneType"
  | VBool _ => "bool"
  | VInt _ => "int"
  | VFloat _ => "float"
  | VStr _ => "str"
  | VList _ => "list"
  | VDict _ => "dict"
  end.

(** [a - b] on arbitrary values: only numbers subtract. *)
Definition py_sub (a b : value) : result num :=
  match as_num a, as_num b with
  | Some x, Some y => num_sub x y
  | _, _ =>
      Raise (Exn TypeError
               ("unsupported operand type(s) for -: '" ++ type_name a
                ++ "' and '" ++ type_name b ++ "'"))
  end.

(** [round(n, ndigits)] for [0 <= ndigits]: an [int] is returned as it is. *)
Definition num_round (n : num) (ndigits : Z) : num :=
  match n with
  | NInt z => NInt z
  | NFloat f => NFloat (Float.round f ndigits)
  end.

Definition num_neg (n : num) : num :=
  match n with
  | NInt z => NInt (- z)
  | NFloat f => NFloat (Float.opp f)
  end.

Definition num_is_nan (n : num) : bool :=
  match n with NInt _ => false | NFloat f => Float.is_nan f end.

Definition num_is_finite (n : num) : bool :=
  match n with NInt _ => true | NFloat f => Float.is_finite f end.

(** [n == 0]. *)
Definition num_is_zero (n : num) : bool :=
  match n with NInt z => z =? 0 | NFloat f => Float.is_zero f end.

(** [a == b] between two numbers of the same kind; the comparisons made
    below never mix an [int] with a [float]. *)
Definition num_eqb (a b : num) : bool :=
  match a, b with
  | NInt x, NInt y => x =? y
  | NFloat x, NFloat y => Float.eqb x y
  | _, _ => false
  end.

(** ** Feature records ([Abstracts] in main.py) *)

(** An instance of one of the [namedtuple] classes: its fields, in
    declaration order, each with the value it holds. *)
Definition abstract : Type := dict value.

Definition AudioAbstract_fields : list string :=
  ["pitch"; "rhythm"; "timbre"; "accent"; "pronunciations"; "intensity";
   "cords"; "idiosyncrasies"; "melody"].

Definition VideoAbstract_fields : list string := [].

Definition TextAbstract_fields : list string :=
  ["vocabulary-diversity"; "word-preferences"; "slang-rate";
   "Idiom-preferences"; "Contraction-rate"; "capitalization-ratio";
   "stop-words-rate"; "punctuation-frequency"; "typos-rate"; "emoji-rate";
   "salutation-rate"; "quoting-style"; "abbreviation-rate"].

(** [keyword.kwlist] *)
Definition kwlist : list string :=
  ["False"; "None"; "True"; "and"; "as"; "assert"; "async"; "await"; "break";
   "class"; "continue"; "def"; "del"; "elif"; "else"; "except"; "finally";
   "for"; "from"; "global"; "if"; "import"; "in"; "is"; "lambda"; "nonlocal";
   "not"; "or"; "pass"; "raise"; "return"; "try"; "while"; "with"; "yield"].

(** The first loop of [collections.namedtuple]: the type name and every
    field name is an identifier and no keyword. *)
Fixpoint check_names (names : list string) : result unit :=
  match names with
  | [] => Ret tt
  | name :: rest =>
      if negb (Str.isidentifier name)
      then Raise (Exn ValueError
                    ("Type names and field names must be valid identifiers: "
                     ++ Str.repr name))
      else if str_in name kwlist
      then Raise (Exn ValueError
                    ("Type names and field names cannot be a keyword: "
                     ++ Str.repr name))
      else check_names rest
  end.

(** Its second loop: no field name starts with an underscore or comes
    twice. *)
Fixpoint check_fields (field_names seen : list string) : result unit :=
  match field_names with
  | [] => Ret tt
  | name :: rest =>
      if Str.startswith "_" name
      then Raise (Exn ValueError
                    ("Field names cannot start with an underscore: "
                     ++ Str.repr name))
      else if str_in name seen
      then Raise (Exn ValueError
                    ("Encountered duplicate field name: " ++ Str.repr name))
      else check_fields rest (name :: seen)
  end.

(** [namedtuple(typename, field_names, defaults=[None] * n)]: the class, as
    its list of fields.  Every class of [Abstracts] gives as many defaults
    as fields, so that every field may be left out when an instance is
    built. *)
Definition namedtuple (typename : string) (field_names : list string)
    (n : nat) : result (list string) :=
  _ <- check_names (typename :: field_names) ;;
  _ <- check_fields field_names [] ;;
  if (List.length field_names <? n)%nat
  then Raise (Exn TypeError "Got more default values than field names")
  else Ret field_names.

(** The instance whose slots hold the keyword given for them, [None] being
    the default of every slot. *)
Definition fill (fields : list string) (kwargs : dict value) : abstract :=
  map (fun f => (f, match dict_get f kwargs with
                    | Some v => v
                    | None => VNone
                    end)) fields.

(** A class called with keyword arguments: a keyword that is not a field is
    a [TypeError]. *)
Definition new_abstract (fields : list string) (kwargs : dict value)
  : result abstract :=
  if forallb (fun k => str_in k fields) (dict_keys kwargs)
  then Ret (fill fields kwargs)
  else Raise (Exn TypeError "got an unexpected keyword argument").

(** The classes of [Abstracts].  [TextAbstract] is the one whose class
    statement raises: its field names are hyphenated, and [namedtuple]
    accepts identifiers only.  No such class is ever created; an expression
    that names it is modelled by that exception. *)
Module Abstracts.

Definition AudioAbstract : result (list string) :=
  namedtuple "AudioAbstract" AudioAbstract_fields 9.

Definition VideoAbstract : result (list string) :=
  namedtuple "VideoAbstract" VideoAbstract_fields 0.

Definition TextAbstract : result (list string) :=
  namedtuple "TextAbstract" TextAbstract_fields 13.

End Abstracts.

(** [cls(keywords)] for a class of [Abstracts]. *)
Definition instantiate (cls : result (list string)) (kwargs : dict value)
  : result abstract :=
  fields <- cls ;;
  new_abstract fields kwargs.

Definition AudioAbstract : dict value -> result abstract :=
  instantiate Abstracts.AudioAbstract.
Definition TextAbstract : dict value -> result abstract :=
  instantiate Abstracts.TextAbstract.
Definition VideoAbstract : dict value -> result abstract :=
  instantiate Abstracts.VideoAbstract.

(** The all-unset instance of a class: [AudioAbstract()],
    [VideoAbstract()]. *)
Definition unset (fields : list string) : abstract :=
  map (fun f => (f, VNone)) fields.

Definition getattr (a : abstract) (field : string) : result value :=
  match dict_get field a with
  | Some v => Ret v
  | None => Raise (Exn AttributeError "object has no attribute")
  end.

(** ** The differential engine *)

(** A deviation mapping holds, per slot, a rounded difference or a nested
    mapping of rounded differences. *)
Inductive dvalue : Type :=
| DNum (n : num)
| DMap (m : dict num).

(** One key [k] of the comprehension of the nested case,
    [{k: round(c_val[k] - b_val[k], 4)
      for k in c_val if isinstance(c_val[k], (int, float)) and k in b_val}]:
    the entry it contributes, if any. *)
Definition key_delta (c_val b_val : dict value) (k : string)
  : result (option num) :=
  ck <- getitem c_val k ;;
  if is_numeric ck && dict_mem k b_val then
    bk <- getitem b_val k ;;
    n <- py_sub ck bk ;;
    Ret (Some (num_round n 4))
  else Ret None.

Fixpoint nested_delta_keys (keys : list string) (c_val b_val : dict value)
    (acc : dict num) : result (dict num) :=
  match keys with
  | [] => Ret acc
  | k :: rest =>
      o <- key_delta c_val b_val k ;;
      nested_delta_keys rest c_val b_val
        (match o with Some n => dict_set k n acc | None => acc end)
  end.

Definition nested_delta (c_val b_val : dict value) : result (dict num) :=
  nested_delta_keys (dict_keys c_val) c_val b_val [].

(** One iteration of the loop [for field in current._fields]: the value
    assigned to [delta[field]], if any. *)
Definition field_delta (current base : abstract) (field : string)
  : result (option dvalue) :=
  c_val <- getattr current field ;;
  b_val <- getattr base field ;;
  match as_num c_val, as_num b_val with
  | Some c, Some b =>
      n <- num_sub c b ;;
      Ret (Some (DNum (num_round n 4)))
  | _, _ =>
      match c_val, b_val with
      | VDict c, VDict b =>
          m <- nested_delta c b ;;
          Ret (Some (DMap m))
      | _, _ => Ret None
      end
  end.

Fixpoint delta_fields (fields : list string) (current base : abstract)
    (delta : dict dvalue) : result (dict dvalue) :=
  match fields with
  | [] => Ret delta
  | field :: rest =>
      o <- field_delta current base field ;;
      delta_fields rest current base
        (match o with Some v => dict_set field v delta | None => delta end)
  end.

(** [DifferentialEngine.compute_delta(current, base)].  [None] and the empty
    tuple are the falsy arguments. *)
Definition compute_delta (current base : option abstract)
  : result (dict dvalue) :=
  match current, base with
  | Some (c :: cs), Some (b :: bs) =>
      delta_fields (dict_keys (c :: cs)) (c :: cs) (b :: bs) []
  | _, _ => Ret []
  end.

(** The shape shared by the two loops of the engine: visit the keys in
    order and assign to an accumulator what the body yields for each. *)
Fixpoint collect {V : Type} (body : string -> result (option V))
    (keys : list string) (acc : dict V) : result (dict V) :=
  match keys with
  | [] => Ret acc
  | k :: rest =>
      o <- body k ;;
      collect body rest
        (match o with Some v => dict_set k v acc | None => acc end)
  end.

(** ** TextAnalyser.py *)

Module TextAnalyser.

(** The collaborators of the text analyser. *)
Record TextServices : Type := {
  (** [nltk.tokenize.word_tokenize] *)
  word_tokenize : string -> list string;
  (** [stopwords.words('english')] *)
  stop_words : list string;
  (** the lines of [./WhiteList.dict]; [None] when the file does not exist *)
  whitelist_file : option (list string);
  (** [SpellChecker().unknown(words)], a set *)
  spell_unknown : list string -> list string;
  (** [w in SpellChecker()] *)
  spell_known : string -> bool;
  (** [fuzz.ratio] *)
  fuzz_ratio : string -> string -> Z
}.

Definition _CONTRACTIONS : list string :=
  ["i'm"; "you're"; "he's"; "she's"; "it's"; "we're"; "they're"; "isn't";
   "aren't"; "don't"; "doesn't"; "can't"; "won't"].

Definition _SLANG : list string :=
  ["lol"; "omg"; "imo"; "tldr"; "fomo"; "yolo"; "tbh"; "ikr"; "vibe"; "btw"].

Definition _IDIOMS : list string :=
  ["piece of cake"; "break a leg"; "spill the beans"; "bite the bullet";
   "cost an arm and a leg"].

Definition _PHONETIC_TARGETS : list string :=
  ["you"; "are"; "see"; "night"; "great"; "later"; "for"; "be"].

Record Analyser : Type := {
  raw : string;
  text_lower : string;
  whitelist : list string;
  words : list string;
  word_count : Z;
  char_count : Z
}.

Section Methods.

Variable svc : TextServices.

Definition _load_whitelist : list string :=
  match whitelist_file svc with
  | Some lines =>
      map (fun line => Str.lower (Str.strip line))
        (filter (fun line => negb (String.eqb (Str.strip line) EmptyString)) lines)
  | None => []
  end.

(** [Analyser.__init__] *)
Definition init (text : string) : Analyser :=
  let text_lower := Str.lower text in
  let all_tokens := word_tokenize svc text_lower in
  let words := filter Str.isalnum all_tokens in
  {| raw := text;
     text_lower := text_lower;
     whitelist := _load_whitelist;
     words := words;
     word_count := Z.of_nat (List.length words);
     char_count := Str.len text |}.

(** [x / y] between two [int]s, for [y <> 0]: the double nearest to the
    quotient.  Both operands are counts or lengths, below [2^53], and convert
    to doubles without rounding. *)
Definition truediv (x y : Z) : float := Float.div (Float.of_Z x) (Float.of_Z y).

(** [sum(1 for w in ws if p(w))] *)
Definition count_if (p : string -> bool) (ws : list string) : Z :=
  Z.of_nat (List.length (filter p ws)).

Variable self : Analyser.

Definition _get_diversity : float :=
  if word_count self >? 0
  then truediv (Z.of_nat (List.length (nodup string_dec (words self))))
               (word_count self)
  else f_0_0.

(** [Counter(l)]: counts by first occurrence. *)
Fixpoint counter (l : list string) (acc : dict Z) : dict Z :=
  match l with
  | [] => acc
  | w :: rest =>
      counter rest
        (dict_set w (match dict_get w acc with Some c => c + 1 | None => 1 end)
           acc)
  end.

(** Stable insertion by decreasing count. *)
Fixpoint insert_by_count (x : string * Z) (l : list (string * Z))
  : list (string * Z) :=
  match l with
  | [] => [x]
  | y :: t =>
      if snd y >? snd x then y :: insert_by_count x t else x :: y :: t
  end.

(** [Counter.most_common(n)] *)
Definition most_common (n : nat) (c : dict Z) : list (string * Z) :=
  firstn n (fold_right insert_by_count [] c).

Definition _get_prefs : dict value :=
  let meaningful :=
    filter (fun w => negb (str_in w (stop_words svc))) (words self) in
  let counts := most_common 3 (counter meaningful []) in
  if word_count self >? 0
  then fold_left
         (fun d wc => dict_set (fst wc)
                        (VFloat (truediv (snd wc) (word_count self))) d)
         counts []
  else [].

Definition _get_slang_rate : float :=
  if word_count self >? 0
  then truediv (count_if (fun w => str_in w _SLANG) (words self))
               (word_count self)
  else f_0_0.

Definition _get_idiom_rate : float :=
  let count :=
    fold_left Z.add
      (map (fun i => Str.count_sub i (text_lower self) 0) _IDIOMS) 0 in
  if word_count self >? 0 then truediv count (word_count self) else f_0_0.

Definition _get_contraction_rate : float :=
  if word_count self >? 0
  then truediv (count_if (fun w => str_in w _CONTRACTIONS) (words self))
               (word_count self)
  else f_0_0.

Definition _get_cap_ratio : float :=
  if char_count self >? 0
  then truediv (Str.count_chars Str.isupper (raw self)) (char_count self)
  else f_0_0.

Definition _get_stop_rate : float :=
  if word_count self >? 0
  then truediv (count_if (fun w => str_in w (stop_words svc)) (words self))
               (word_count self)
  else f_0_0.

Definition _get_punc_freq : dict value :=
  let counts :=
    counter (map (fun c => String c EmptyString)
                 (filter Str.ispunct (Str.chars (raw self)))) [] in
  if char_count self >? 0
  then fold_left
         (fun d pc => dict_set (fst pc)
                        (VFloat (truediv (snd pc) (char_count self))) d)
         counts []
  else [].

Definition _get_typos_rate : float :=
  if word_count self =? 0 then f_0_0
  else
    let unknown := spell_unknown svc (words self) in
    let actual_typos :=
      filter (fun w => negb (str_in w (whitelist self))) unknown in
    truediv (Z.of_nat (List.length actual_typos)) (word_count self).

Definition _get_emoji_rate : float :=
  let emojis := Str.count_runs (fun c => 128 <=? Str.code c) (raw self) false in
  if char_count self >? 0 then truediv emojis (char_count self) else f_0_0.

Definition _get_salutation_rate : float :=
  match words self with
  | w :: _ =>
      if str_in w ["hello"; "hi"; "dear"; "regards"; "hey"] then f_1_0
      else f_0_0
  | [] => f_0_0
  end.

Definition _get_quoting_style : string :=
  let s := Str.count_chars (Ascii.eqb "'"%char) (raw self) in
  let d := Str.count_chars (Ascii.eqb "034"%char) (raw self) in
  if s >? d then "single-quotes"
  else if d >? s then "double-quotes"
  else "none/mixed".

Definition _get_abbreviation_rate : float :=
  if word_count self =? 0 then f_0_0
  else
    let abbr_count :=
      count_if (fun w => str_in w (whitelist self)) (words self) in
    let phonetic :=
      count_if
        (fun w =>
           negb (str_in w (whitelist self))
           && (Z.of_nat (String.length w) <=? 3)
           && negb (spell_known svc w)
           && existsb (fun target => fuzz_ratio svc w target >? 70)
                _PHONETIC_TARGETS)
        (words self) in
    truediv (abbr_count + phonetic) (word_count self).

Definition diagnostic_keys : list string :=
  ["vocabulary-diversity"; "word-preferences"; "slang-rate";
   "Idiom-preferences"; "Contraction-rate"; "capitalization-ratio";
   "stop-words-rate"; "punctuation-frequency"; "typos-rate"; "emoji-rate";
   "salutation-rate"; "quoting-style"; "abbreviation-rate"].

(** [not self.words and not self.raw] *)
Definition nothing_to_analyse : bool :=
  match words self, raw self with
  | [], EmptyString => true
  | _, _ => false
  end.

Definition get_diagnostics : dict value :=
  if nothing_to_analyse
  then map (fun k => (k, VNone)) diagnostic_keys
  else
    [("vocabulary-diversity", VFloat _get_diversity);
     ("word-preferences", VDict _get_prefs);
     ("slang-rate", VFloat _get_slang_rate);
     ("Idiom-preferences", VFloat _get_idiom_rate);
     ("Contraction-rate", VFloat _get_contraction_rate);
     ("capitalization-ratio", VFloat _get_cap_ratio);
     ("stop-words-rate", VFloat _get_stop_rate);
     ("punctuation-frequency", VDict _get_punc_freq);
     ("typos-rate", VFloat _get_typos_rate);
     ("emoji-rate", VFloat _get_emoji_rate);
     ("salutation-rate", VFloat _get_salutation_rate);
     ("quoting-style", VStr _get_quoting_style);
     ("abbreviation-rate", VFloat _get_abbreviation_rate)].

End Methods.

(** [Analyser(text).get_analysis()], as main.py calls it.  The class
    defines [__init__], [_load_whitelist], the [_get_*] methods and
    [get_diagnostics], and no attribute named [get_analysis]: the lookup on
    an instance raises. *)
Definition get_analysis (svc : TextServices) (self : Analyser)
  : result (dict value) :=
  Raise (Exn AttributeError
           "'Analyser' object has no attribute 'get_analysis'").

End TextAnalyser.

(** ** AudioAnalyser.py *)

Module AudioAnalyser.

(** What the Praat and librosa calls of [get_analysis] measure before the
    result mapping is built. *)
Record Core : Type := {
  f0_mean : float;
  f0_std : float;
  mfcc_mean : list float;
  jitter : float;
  shimmer : float;
  peaks : Z;
  duration : float
}.

(** The collaborators of the audio analyser, by audio path. *)
Record AudioServices : Type := {
  (** [os.path.exists] *)
  path_exists : string -> bool;
  (** [parselmouth.Sound(path)]: the exception it raises, if any *)
  load_sound : string -> option exn;
  (** the signal-processing calls made before the mapping is built *)
  measure : string -> result Core;
  (** [call(self.intensity_obj, "Get mean", 0, 0)] *)
  intensity_mean : string -> result float;
  (** [call(self.intensity_obj, "Get maximum", 0, 0, "Parabolic")] *)
  intensity_max : string -> result float
}.

Record Analyser : Type := { audio_path : string }.

Section Methods.

Variable svc : AudioServices.

(** [Analyser.__init__] *)
Definition init (path : string) : result Analyser :=
  if negb (path_exists svc path)
  then Raise (Exn FileNotFoundError ("Source signal not found at " ++ path))
  else
    match load_sound svc path with
    | Some e => Raise e
    | None => Ret {| audio_path := path |}
    end.

(** [x / y] for an [int] [x] and a [float] [y]. *)
Definition truediv_int_float (x : Z) (y : float) : result float :=
  fx <- float_of_int x ;;
  if Float.is_zero y
  then Raise (Exn ZeroDivisionError "float division by zero")
  else Ret (Float.div fx y).

(** [round(float(x), n) if not np.isnan(x) else None] *)
Definition round_unless_nan (x : float) (n : Z) : value :=
  if Float.is_nan x then VNone else VFloat (Float.round x n).

(** The body of the [try] block of [get_analysis]. *)
Definition analysis_body (self : Analyser) : result (dict value) :=
  c <- measure svc (audio_path self) ;;
  let pitch :=
    [("mean_f0_hz", round_unless_nan (f0_mean c) 2);
     ("stdev_f0_hz", round_unless_nan (f0_std c) 2)] in
  rate <- truediv_int_float (peaks c) (duration c) ;;
  let rhythm :=
    [("syllabic_rate_proxy", VFloat (Float.round rate 2));
     ("total_duration_sec", VFloat (Float.round (duration c) 2))] in
  let timbre :=
    [("spectral_centroid_vectors",
      VList (map (fun x => VFloat (Float.round x 3)) (mfcc_mean c)))] in
  mean_db <- intensity_mean svc (audio_path self) ;;
  max_db <- intensity_max svc (audio_path self) ;;
  let intensity :=
    [("mean_db", VFloat (Float.round mean_db 2));
     ("max_db", VFloat (Float.round max_db 2))] in
  let idiosyncrasies :=
    [("jitter_local_pct",
      if Float.is_nan (jitter c) then VNone
      else VFloat (Float.round (Float.mul (jitter c) f_100_0) 4));
     ("shimmer_local_pct",
      if Float.is_nan (shimmer c) then VNone
      else VFloat (Float.round (Float.mul (shimmer c) f_100_0) 4))] in
  Ret [("pitch", VDict pitch);
       ("rhythm", VDict rhythm);
       ("timbre", VDict timbre);
       ("accent",
        VStr "HEURISTIC_REQUIRED: Requires linguistic phoneme distribution model.");
       ("pronunciations",
        VStr "ASR_REQUIRED: Requires acoustic-to-text alignment model.");
       ("intensity", VDict intensity);
       ("idiosyncrasies", VDict idiosyncrasies)].

(** [Analyser.get_analysis]: any exception of the body becomes the
    single-key error mapping. *)
Definition get_analysis (self : Analyser) : dict value :=
  match analysis_body self with
  | Ret d => d
  | Raise e => [("error", VStr (exn_str e))]
  end.

End Methods.

(** The mapping that [get_analysis] returns when nothing raises, from what
    was measured: the core measurements, the syllabic rate and the two
    intensity statistics. *)
Definition report (c : Core) (rate mean_db max_db : float) : dict value :=
  [("pitch",
    VDict [("mean_f0_hz", round_unless_nan (f0_mean c) 2);
           ("stdev_f0_hz", round_unless_nan (f0_std c) 2)]);
   ("rhythm",
    VDict [("syllabic_rate_proxy", VFloat (Float.round rate 2));
           ("total_duration_sec", VFloat (Float.round (duration c) 2))]);
   ("timbre",
    VDict [("spectral_centroid_vectors",
            VList (map (fun x => VFloat (Float.round x 3)) (mfcc_mean c)))]);
   ("accent",
    VStr "HEURISTIC_REQUIRED: Requires linguistic phoneme distribution model.");
   ("pronunciations",
    VStr "ASR_REQUIRED: Requires acoustic-to-text alignment model.");
   ("intensity",
    VDict [("mean_db", VFloat (Float.round mean_db 2));
           ("max_db", VFloat (Float.round max_db 2))]);
   ("idiosyncrasies",
    VDict [("jitter_local_pct",
            if Float.is_nan (jitter c) then VNone
            else VFloat (Float.round (Float.mul (jitter c) f_100_0) 4));
           ("shimmer_local_pct",
            if Float.is_nan (shimmer c) then VNone
            else VFloat (Float.round (Float.mul (shimmer c) f_100_0) 4))])].

(** [run_analysis(input_file)]: the document that is serialised and
    printed.  Whatever the constructor or the analysis raises is caught and
    replaced by a failure document. *)
Definition run_analysis (svc : AudioServices) (input_file : string)
  : dict value :=
  match (engine <- init svc input_file ;; Ret (get_analysis svc engine)) with
  | Ret results => results
  | Raise e => [("status", VStr "failed"); ("reason", VStr (exn_str e))]
  end.

End AudioAnalyser.

(** ** JSON serialisation of the deviation summary *)

Module Json.

Definition dq : string := String "034"%char EmptyString.

(** [json.dumps] escapes of one character, with [ensure_ascii]. *)
Definition escape_char (c : ascii) : string :=
  let x := Str.code c in
  if x =? 34 then String "\"%char dq
  else if x =? 92 then "\\"
  else if x =? 10 then "\n"
  else if x =? 13 then "\r"
  else if x =? 9 then "\t"
  else if x =? 8 then "\b"
  else if x =? 12 then "\f"
  else if Str.between 32 126 x then String c EmptyString
  else "\u00" ++ String (Str.hex_digit (x / 16))
                   (String (Str.hex_digit (x mod 16)) EmptyString).

Fixpoint escape (s : string) : string :=
  match s with
  | EmptyString => EmptyString
  | String c s' => escape_char c ++ escape s'
  end.

Definition dumps_str (s : string) : string := dq ++ escape s ++ dq.

Definition dumps_int (z : Z) : string := NilZero.string_of_int (Z.to_int z).

Section Dumps.

(** [float.__repr__] on finite doubles. *)
Variable float_repr : float -> string.

Definition dumps_float (f : float) : string :=
  match f with
  | S754_nan => "NaN"
  | S754_infinity false => "Infinity"
  | S754_infinity true => "-Infinity"
  | _ => float_repr f
  end.

Definition dumps_num (n : num) : string :=
  match n with
  | NInt z => dumps_int z
  | NFloat f => dumps_float f
  end.

(** A JSON object from its members, already serialised. *)
Definition dumps_object (members : list (string * string)) : string :=
  "{" ++ String.concat ", "
           (map (fun kv => dumps_str (fst kv) ++ ": " ++ snd kv) members)
      ++ "}".

Definition dumps_dict {A : Type} (dumps : A -> string) (d : dict A) : string :=
  dumps_object (map (fun kv => (fst kv, dumps (snd kv))) d).

Definition dumps_dvalue (v : dvalue) : string :=
  match v with
  | DNum n => dumps_num n
  | DMap m => dumps_dict dumps_num m
  end.

(** [json.dumps(delta_a)] *)
Definition dumps (delta_a : dict (dict dvalue)) : string :=
  dumps_dict (dumps_dict dumps_dvalue) delta_a.

End Dumps.

End Json.

(** ** main.py: the token assembler *)

(** A baseline, and the map of current instances: modality name to feature
    record, [None] for an absent one. *)
Definition profiles : Type := dict (option abstract).

Record EToken : Type := {
  logical_schema : string;
  emotion_schema : string;
  base_abstract : profiles;
  current_abstract : profiles
}.

(** Truth value of an optional string argument: [None] and the empty string
    are falsy. *)
Definition supplied (s : option string) : bool :=
  match s with
  | Some (String _ _) => true
  | _ => false
  end.

(** The default baseline of step 1, [{"text": Abstracts.TextAbstract(),
    "audio": Abstracts.AudioAbstract(), "video": Abstracts.VideoAbstract()}],
    its values evaluated in that order. *)
Definition default_base : result profiles :=
  t <- TextAbstract [] ;;
  a <- AudioAbstract [] ;;
  v <- VideoAbstract [] ;;
  Ret [("text", Some t); ("audio", Some a); ("video", Some v)].

(** Step 1, [base_profiles or {...}]: [None] and the empty mapping are the
    falsy arguments, for which the default baseline is evaluated. *)
Definition resolve_base (base_profiles : option profiles) : result profiles :=
  match base_profiles with
  | Some (b :: bs) => Ret (b :: bs)
  | _ => default_base
  end.

Section Assembler.

Variable tsvc : TextAnalyser.TextServices.
Variable asvc : AudioAnalyser.AudioServices.
Variable float_repr : float -> string.

(** Step 2 for text: when [text] is truthy, the class [TextAbstract] called
    with the keywords that [TextAnalyser(text).get_analysis()] returns (the
    class is looked up before its arguments are evaluated); else [None]. *)
Definition current_text (text : option string) : result (option abstract) :=
  match text with
  | Some (String c t) =>
      fields <- Abstracts.TextAbstract ;;
      kwargs <- TextAnalyser.get_analysis tsvc
                  (TextAnalyser.init tsvc (String c t)) ;;
      a <- new_abstract fields kwargs ;;
      Ret (Some a)
  | _ => Ret None
  end.

(** Step 2 for audio. *)
Definition current_audio (audio_path : option string)
  : result (option abstract) :=
  match audio_path with
  | Some (String c p) =>
      analyser <- AudioAnalyser.init asvc (String c p) ;;
      let raw_audio := AudioAnalyser.get_analysis asvc analyser in
      fields <- Abstracts.AudioAbstract ;;
      let filtered := filter (fun kv => str_in (fst kv) fields) raw_audio in
      a <- AudioAbstract filtered ;;
      Ret (Some a)
  | _ => Ret None
  end.

Definition delta_prefix (delta_a : dict (dict dvalue)) : string :=
  "[DELTA_A: " ++ Json.dumps float_repr delta_a ++ "]".

Definition extract_etoken (text audio_path video_path : option string)
    (base_profiles : option profiles) : result EToken :=
  base <- resolve_base base_profiles ;;
  curr_text <- current_text text ;;
  curr_audio <- current_audio audio_path ;;
  base_text <- getitem base "text" ;;
  text_deviation <- compute_delta curr_text base_text ;;
  base_audio <- getitem base "audio" ;;
  audio_deviation <- compute_delta curr_audio base_audio ;;
  let delta_a :=
    [("text_deviation", text_deviation);
     ("audio_deviation", audio_deviation)] in
  let logical_schema :=
    match text with Some (String c t) => String c t | _ => EmptyString end in
  let emotion_schema :=
    match text with
    | Some (String c t) => delta_prefix delta_a ++ " " ++ String c t
    | _ => delta_prefix delta_a
    end in
  Ret {| logical_schema := logical_schema;
         emotion_schema := emotion_schema;
         base_abstract := base;
         current_abstract := [("text", curr_text); ("audio", curr_audio)] |}.

End Assembler.

(** ** Well-formed baselines *)

(** [a] is absent, empty, or has every field of the class. *)
Definition has_fields (fields : list string) (a : option abstract) : bool :=
  match a with
  | Some (x :: r) => forallb (fun f => dict_mem f (x :: r)) fields
  | _ => true
  end.

(** The baseline has an entry for the two modalities the assembler reads. *)
Definition has_modalities (base : profiles) : bool :=
  dict_mem "text" base && dict_mem "audio" base.


(** The message of the [ValueError] raised by the class statement of
    [TextAbstract]. *)
Definition invalid_field_name : string :=
  "Type names and field names must be valid identifiers: 'vocabulary-diversity'".

(** The serialised summary of two empty deviation mappings. *)
Definition bare_prefix : string :=
  "[DELTA_A: {" ++ Json.dq ++ "text_deviation" ++ Json.dq ++ ": {}, "
  ++ Json.dq ++ "audio_deviation" ++ Json.dq ++ ": {}}]".

(** ** Scenario data *)

Module Scenario.

(** A tokenizer that answers as NLTK does on the texts used below. *)
Definition tokenize (s : string) : list string :=
  if String.eqb s "i'm so tired lol, lol!"
  then ["i"; "'m"; "so"; "tired"; "lol"; ","; "lol"; "!"]
  else if String.eqb s "!!!" then ["!"; "!"; "!"]
  else [].

Definition text_svc : TextAnalyser.TextServices :=
  {| TextAnalyser.word_tokenize := tokenize;
     TextAnalyser.stop_words := ["i"; "so"];
     TextAnalyser.whitelist_file := None;
     TextAnalyser.spell_unknown := fun _ => [];
     TextAnalyser.spell_known := fun _ => true;
     TextAnalyser.fuzz_ratio := fun _ _ => 0 |}.

Definition voiced : AudioAnalyser.Core :=
  {| AudioAnalyser.f0_mean := f_195_5;
     AudioAnalyser.f0_std := f_15_5;
     AudioAnalyser.mfcc_mean := [f_0_8; f_0_4];
     AudioAnalyser.jitter := f_0_4;
     AudioAnalyser.shimmer := f_nan;
     AudioAnalyser.peaks := 5;
     AudioAnalyser.duration := f_15_5 |}.

(** A file system with [voice.wav], [empty.wav] and [broken.wav], and the
    libraries as they answer on them.  [empty.wav] holds no samples:
    [parselmouth.Sound] raises on it.  [broken.wav] is loaded, and its
    processing fails.  On [voice.wav] the queries are answered up to the
    shimmer one, which Praat does not have for a point process taken alone.
    The messages stand for the libraries' own. *)
Definition audio_svc : AudioAnalyser.AudioServices :=
  {| AudioAnalyser.path_exists :=
       fun p => str_in p ["voice.wav"; "empty.wav"; "broken.wav"];
     AudioAnalyser.load_sound :=
       fun p =>
         if String.eqb p "empty.wav"
         then Some (Exn ExternalError "audio file contains no samples")
         else None;
     AudioAnalyser.measure :=
       fun p =>
         if String.eqb p "voice.wav"
         then Raise (Exn ExternalError
                       "Command 'Get shimmer (local)' not available for given objects.")
         else Raise (Exn ExternalError "unsupported format");
     AudioAnalyser.intensity_mean := fun _ => Ret f_100_0;
     AudioAnalyser.intensity_max := fun _ => Ret f_180_0 |}.

(** Libraries that answer every query of [get_analysis], as the code
    expects of them, with the measurements [voiced]. *)
Definition answering_svc : AudioAnalyser.AudioServices :=
  {| AudioAnalyser.path_exists := fun p => String.eqb p "voice.wav";
     AudioAnalyser.load_sound := fun _ => None;
     AudioAnalyser.measure := fun _ => Ret voiced;
     AudioAnalyser.intensity_mean := fun _ => Ret f_100_0;
     AudioAnalyser.intensity_max := fun _ => Ret f_180_0 |}.

Definition float_repr (f : float) : string := "<float>".

(** Audio records: a current and a baseline mean pitch. *)
Definition pitch_195 : abstract :=
  fill AudioAbstract_fields
    [("pitch", VDict [("mean_f0_hz", VFloat f_195_5)]);
     ("melody", VFloat f_195_5)].

Definition pitch_180 : abstract :=
  fill AudioAbstract_fields
    [("pitch", VDict [("mean_f0_hz", VFloat f_180_0)]);
     ("melody", VInt 180)].

(** The baseline pitch could not be measured: the analyser stores [None]
    for a NaN mean. *)
Definition pitch_unvoiced : abstract :=
  fill AudioAbstract_fields [("pitch", VDict [("mean_f0_hz", VNone)])].

Definition pitch_only_195 : abstract :=
  fill AudioAbstract_fields [("pitch", VDict [("mean_f0_hz", VFloat f_195_5)])].

(** The same two measurements held directly by a slot. *)
Definition melody_195 : abstract :=
  fill AudioAbstract_fields [("melody", VFloat f_195_5)].

Definition melody_unset : abstract :=
  fill AudioAbstract_fields [("melody", VNone)].

(** Records with an infinite slot and with a NaN nested value. *)
Definition melody_inf : abstract :=
  fill AudioAbstract_fields [("melody", VFloat f_inf)].

Definition intensity_nan : abstract :=
  fill AudioAbstract_fields [("intensity", VDict [("mean_db", VFloat f_nan)])].

Definition intensity_100 : abstract :=
  fill AudioAbstract_fields
    [("intensity", VDict [("mean_db", VFloat f_100_0)])].

End Scenario.

(** ** Shapes of values *)

Definition is_float (v : value) : bool :=
  match v with VFloat _ => true | _ => false end.

Definition is_dict (v : value) : bool :=
  match v with VDict _ => true | _ => false end.

(** What the text analyser stores under a metric: nothing, a string, a
    float, or a mapping whose values are floats. *)
Definition text_metric (v : value) : bool :=
  match v with
  | VNone | VStr _ | VFloat _ => true
  | VDict m => forallb (fun kv => is_float (snd kv)) m
  | _ => false
  end.

(** A mapping whose values are all floats. *)
Definition floats_only (m : dict value) : Prop :=
  Forall (fun kv => is_float (snd kv) = true) m.

(** The keys of a successful audio analysis. *)
Definition analysis_keys : list string :=
  ["pitch"; "rhythm"; "timbre"; "accent"; "pronunciations"; "intensity";
   "idiosyncrasies"].

(** * Properties *)

(** ** Dictionaries *)

Section DictFacts.

Context {A : Type}.

Lemma dict_get_set_same (k : string) (v : A) (d : dict A) :
  dict_get k (dict_set k v d) = Some v.
Proof.
  induction d as [|[k' v'] d IH]; simpl.
  - now rewrite String.eqb_refl.
  - destruct (String.eqb k k') eqn:E; simpl; rewrite E; auto.
Qed.

Lemma dict_get_set_other (k k' : string) (v : A) (d : dict A) :
  k <> k' -> dict_get k (dict_set k' v d) = dict_get k d.
Proof.
  intros Hne. induction d as [|[k'' v''] d IH]; simpl.
  - destruct (String.eqb_spec k k'); congruence.
  - destruct (String.eqb_spec k' k''); simpl.
    + subst. destruct (String.eqb_spec k k''); congruence.
    + destruct (String.eqb_spec k k''); auto.
Qed.

Lemma dict_get_In (k : string) (v : A) (d : dict A) :
  dict_get k d = Some v -> In k (dict_keys d).
Proof.
  induction d as [|[k' v'] d IH]; simpl; [discriminate|].
  destruct (String.eqb_spec k k'); auto.
Qed.

Lemma dict_In_get (k : string) (d : dict A) :
  In k (dict_keys d) -> exists v, dict_get k d = Some v.
Proof.
  induction d as [|[k' v'] d IH]; simpl; [tauto|].
  intros [->|H].
  - rewrite String.eqb_refl. eauto.
  - destruct (String.eqb k k'); eauto.
Qed.

End DictFacts.

(** ** Floats *)

Module FloatFacts.

Import Float.

Lemma binary_round_aux_opp (s : bool) (m e : Z) (l : location) :
  SFopp (binary_round_aux prec emax s m e l)
  = binary_round_aux prec emax (negb s) m e l.
Proof.
  unfold binary_round_aux.
  destruct (shr_fexp prec emax m e l) as [mrs' e'].
  destruct (shr_fexp prec emax _ e' loc_Exact) as [mrs'' e''].
  destruct (shr_m mrs''); simpl; auto.
  match goal with |- context [Z.leb ?a ?b] => destruct (Z.leb a b) end;
    reflexivity.
Qed.

Lemma binary_round_opp (s : bool) (m : positive) (e : Z) :
  SFopp (binary_round prec emax s m e) = binary_round prec emax (negb s) m e.
Proof.
  unfold binary_round.
  destruct (shl_align m e _) as [mz ez].
  apply binary_round_aux_opp.
Qed.

(** Negating the integer to normalise negates the result, up to the sign of
    a zero. *)
Lemma binary_normalize_opp (m e : Z) :
  (m = 0) \/
  binary_normalize prec emax (- m) e false
  = SFopp (binary_normalize prec emax m e false).
Proof.
  destruct m as [|p|p]; [now left| |]; right; simpl;
    now rewrite binary_round_opp.
Qed.

Lemma opp_involutive (x : float) : opp (opp x) = x.
Proof. destruct x; simpl; try rewrite Bool.negb_involutive; reflexivity. Qed.

(** [b - a] is the opposite of [a - b], except that both are zeros when the
    difference vanishes. *)
Lemma sub_antisym (x y : float) :
  (is_zero (sub x y) = true /\ is_zero (sub y x) = true)
  \/ sub y x = opp (sub x y).
Proof.
  destruct x as [sx|sx| |sx mx ex], y as [sy|sy| |sy my ey];
    try (right; reflexivity);
    try (destruct sx, sy; simpl; auto; fail).
  unfold sub, SFsub.
  rewrite (Z.min_comm ey ex).
  set (a := cond_Zopp sx _). set (b := cond_Zopp sy _).
  replace (b - a) with (- (a - b)) by lia.
  destruct (binary_normalize_opp (a - b) (Z.min ex ey)) as [H0|H]; auto.
  left. rewrite H0. simpl. auto.
Qed.

Lemma eqb_refl (x : float) : is_nan x = false -> eqb x x = true.
Proof.
  destruct x as [s|s| |s m e]; simpl; try discriminate; intros _;
    unfold eqb, SFeqb; simpl; auto.
  - destruct s; reflexivity.
  - destruct s; rewrite Z.compare_refl, Pos.compare_cont_refl; reflexivity.
Qed.

Lemma eqb_zeros (x y : float) :
  is_zero x = true -> is_zero y = true -> eqb x y = true.
Proof. destruct x, y; simpl; try discriminate; reflexivity. Qed.

Lemma sub_diag (x : float) :
  is_finite x = true -> is_zero (sub x x) = true.
Proof.
  destruct x as [s|s| |s m e]; simpl; try discriminate; intros _.
  - destruct s; reflexivity.
  - unfold sub, SFsub. rewrite Z.sub_diag. reflexivity.
Qed.

Lemma set_sign_negb (s : bool) (x : float) :
  set_sign (negb s) x = opp (set_sign s x).
Proof. destruct x; reflexivity. Qed.

Lemma round_opp (x : float) (n : Z) : round (opp x) n = opp (round x n).
Proof.
  destruct x as [s|s| |s m e]; simpl; auto.
  destruct (match e with Zneg pe => _ | _ => _ end); try reflexivity;
    destruct (10 ^ n); try reflexivity.
  apply set_sign_negb.
Qed.

Lemma round_zero (x : float) (n : Z) :
  is_zero x = true -> is_zero (round x n) = true.
Proof. destruct x; simpl; try discriminate; auto. Qed.

Lemma round_nan (x : float) (n : Z) :
  is_nan x = true -> is_nan (round x n) = true.
Proof. destruct x; simpl; try discriminate; auto. Qed.

Lemma is_zero_opp (x : float) : is_zero (opp x) = is_zero x.
Proof. destruct x; reflexivity. Qed.

(** The rounded differences in the two directions are opposite, unless they
    are NaN. *)
Lemma round_sub_antisym (x y : float) (n : Z) :
  is_nan (round (sub x y) n) = false ->
  eqb (round (sub x y) n) (opp (round (sub y x) n)) = true.
Proof.
  intros Hnan.
  destruct (sub_antisym x y) as [[Hx Hy]|H].
  - apply eqb_zeros; [|rewrite is_zero_opp]; now apply round_zero.
  - rewrite H, round_opp, opp_involutive. now apply eqb_refl.
Qed.

End FloatFacts.

(** ** Numbers *)

Lemma py_sub_numeric (a b : value) (n : num) :
  py_sub a b = Ret n ->
  exists x y, as_num a = Some x /\ as_num b = Some y /\ num_sub x y = Ret n.
Proof.
  unfold py_sub. destruct (as_num a) as [x|], (as_num b) as [y|];
    try discriminate; eauto.
Qed.

Lemma num_sub_antisym (a b x : num) :
  num_sub a b = Ret x ->
  exists y, num_sub b a = Ret y /\
    (num_is_nan (num_round x 4) = false ->
     num_eqb (num_round x 4) (num_neg (num_round y 4)) = true).
Proof.
  destruct a as [a|a], b as [b|b]; simpl.
  - intros [= <-]. eexists; split; [reflexivity|]. intros _. simpl.
    apply Z.eqb_eq. lia.
  - destruct (float_of_int a) as [fa|e]; simpl; [|discriminate].
    intros [= <-]. eexists; split; [reflexivity|]. simpl.
    apply FloatFacts.round_sub_antisym.
  - destruct (float_of_int b) as [fb|e]; simpl; [|discriminate].
    intros [= <-]. eexists; split; [reflexivity|]. simpl.
    apply FloatFacts.round_sub_antisym.
  - intros [= <-]. eexists; split; [reflexivity|]. simpl.
    apply FloatFacts.round_sub_antisym.
Qed.

Lemma num_sub_self (n : num) : exists z, num_sub n n = Ret z.
Proof. destruct n; simpl; eauto. Qed.

Lemma num_sub_diag (n z : num) :
  num_is_finite n = true -> num_sub n n = Ret z ->
  num_is_zero (num_round z 4) = true.
Proof.
  destruct n as [a|a]; simpl; intros Hfin [= <-]; simpl.
  - apply Z.eqb_eq. lia.
  - apply FloatFacts.round_zero. now apply FloatFacts.sub_diag.
Qed.

(** ** Loops that fill a dictionary *)

Lemma nested_delta_keys_collect keys c_val b_val acc :
  nested_delta_keys keys c_val b_val acc
  = collect (key_delta c_val b_val) keys acc.
Proof.
  revert acc. induction keys as [|k rest IH]; intros acc; simpl; auto.
  destruct (key_delta c_val b_val k); simpl; auto.
Qed.

Lemma delta_fields_collect fields current base acc :
  delta_fields fields current base acc
  = collect (field_delta current base) fields acc.
Proof.
  revert acc. induction fields as [|k rest IH]; intros acc; simpl; auto.
  destruct (field_delta current base k); simpl; auto.
Qed.

Section Collect.

Context {V : Type}.
Variable body : string -> result (option V).

(** An entry of the result was in the accumulator or is what the body
    yields for one of the keys. *)
Lemma collect_get keys acc d k v :
  collect body keys acc = Ret d ->
  dict_get k d = Some v ->
  dict_get k acc = Some v \/ (In k keys /\ body k = Ret (Some v)).
Proof.
  revert acc. induction keys as [|k' rest IH]; intros acc; simpl.
  - intros [= <-]. auto.
  - destruct (body k') as [o|e] eqn:Hb; simpl; [|discriminate].
    intros Hc Hg. destruct (IH _ Hc Hg) as [Hacc|[Hin Hk]]; [|now auto].
    destruct o as [w|]; [|now auto].
    destruct (string_dec k k') as [->|Hne].
    + rewrite dict_get_set_same in Hacc. injection Hacc as ->. auto.
    + rewrite dict_get_set_other in Hacc by assumption. auto.
Qed.

(** What the body yields for a visited key is in the result. *)
Lemma collect_has keys acc d k v :
  collect body keys acc = Ret d ->
  body k = Ret (Some v) ->
  In k keys \/ dict_get k acc = Some v ->
  dict_get k d = Some v.
Proof.
  revert acc. induction keys as [|k' rest IH]; intros acc; simpl.
  - intros [= <-] _ [[]|H]. exact H.
  - destruct (body k') as [o|e] eqn:Hb; simpl; [|discriminate].
    intros Hc Hk Hin. apply (IH _ Hc Hk).
    destruct (string_dec k k') as [->|Hne].
    + right. rewrite Hk in Hb. injection Hb as <-.
      apply dict_get_set_same.
    + destruct Hin as [[->|Hin]|Hacc]; [congruence|now left|right].
      destruct o; [rewrite dict_get_set_other|]; assumption.
Qed.

(** The loop returns exactly when the body returns on every key. *)
Lemma collect_returns keys acc :
  (forall k, In k keys -> exists o, body k = Ret o) ->
  exists d, collect body keys acc = Ret d.
Proof.
  revert acc. induction keys as [|k' rest IH]; intros acc Hall; simpl; eauto.
  destruct (Hall k') as [o ->]; [now left|]. simpl.
  apply IH. intros k Hk. apply Hall. now right.
Qed.

Lemma collect_body_returns keys acc d k :
  collect body keys acc = Ret d -> In k keys -> exists o, body k = Ret o.
Proof.
  revert acc. induction keys as [|k' rest IH]; intros acc; simpl; [tauto|].
  destruct (body k') as [o|e] eqn:Hb; simpl; [|discriminate].
  intros Hc [<-|Hin]; eauto.
Qed.

End Collect.

(** ** The differential engine *)

Lemma getattr_get (a : abstract) (field : string) (v : value) :
  getattr a field = Ret v <-> dict_get field a = Some v.
Proof.
  unfold getattr. destruct (dict_get field a); split; congruence.
Qed.

Lemma getitem_get {A : Type} (d : dict A) (k : string) (v : A) :
  getitem d k = Ret v <-> dict_get k d = Some v.
Proof.
  unfold getitem. destruct (dict_get k d); split; congruence.
Qed.

Lemma as_num_dict (d : dict value) : as_num (VDict d) = None.
Proof. reflexivity. Qed.

Lemma compute_delta_collect (A B : abstract) :
  A <> [] -> B <> [] ->
  compute_delta (Some A) (Some B)
  = collect (field_delta A B) (dict_keys A) [].
Proof.
  destruct A, B; try congruence. intros _ _.
  unfold compute_delta. apply delta_fields_collect.
Qed.

Lemma compute_delta_entry_nonempty (A B : abstract) d slot v :
  compute_delta (Some A) (Some B) = Ret d ->
  dict_get slot d = Some v -> A <> [] /\ B <> [].
Proof.
  destruct A, B; simpl; try (intros [= <-]; discriminate).
  intros _ _. split; discriminate.
Qed.

Lemma key_delta_some c_val b_val k x :
  key_delta c_val b_val k = Ret (Some x) ->
  exists ck bk n,
    dict_get k c_val = Some ck /\ dict_get k b_val = Some bk /\
    py_sub ck bk = Ret n /\ x = num_round n 4.
Proof.
  unfold key_delta.
  destruct (getitem c_val k) as [ck|] eqn:Hc; simpl; [|discriminate].
  destruct (is_numeric ck && dict_mem k b_val); [|discriminate].
  destruct (getitem b_val k) as [bk|] eqn:Hb; simpl; [|discriminate].
  destruct (py_sub ck bk) as [n|] eqn:Hs; simpl; [|discriminate].
  intros [= <-]. apply getitem_get in Hc, Hb. eauto 8.
Qed.

Lemma key_delta_intro c_val b_val k ck bk n :
  dict_get k c_val = Some ck -> dict_get k b_val = Some bk ->
  py_sub ck bk = Ret n ->
  key_delta c_val b_val k = Ret (Some (num_round n 4)).
Proof.
  intros Hc Hb Hs. unfold key_delta, getitem, dict_mem, is_numeric.
  rewrite Hc, Hb. simpl.
  destruct (py_sub_numeric _ _ _ Hs) as (x & y & -> & _ & _). simpl.
  now rewrite Hs.
Qed.

Lemma field_delta_num A B slot x :
  field_delta A B slot = Ret (Some (DNum x)) ->
  exists cv bv c b n,
    dict_get slot A = Some cv /\ dict_get slot B = Some bv /\
    as_num cv = Some c /\ as_num bv = Some b /\
    num_sub c b = Ret n /\ x = num_round n 4.
Proof.
  unfold field_delta.
  destruct (getattr A slot) as [cv|] eqn:Hc; simpl; [|discriminate].
  destruct (getattr B slot) as [bv|] eqn:Hb; simpl; [|discriminate].
  apply getattr_get in Hc, Hb.
  destruct (as_num cv) as [c|] eqn:Ec, (as_num bv) as [b|] eqn:Eb.
  - destruct (num_sub c b) as [n|] eqn:Hs; simpl; [|discriminate].
    intros [= <-]. exists cv, bv, c, b, n. auto 7.
  - destruct cv; try discriminate; destruct bv; try discriminate;
      destruct (nested_delta _ _); discriminate.
  - destruct cv; try discriminate; destruct bv; try discriminate;
      destruct (nested_delta _ _); discriminate.
  - destruct cv; try discriminate; destruct bv; try discriminate;
      destruct (nested_delta _ _); discriminate.
Qed.

Lemma field_delta_num_intro A B slot cv bv c b n :
  dict_get slot A = Some cv -> dict_get slot B = Some bv ->
  as_num cv = Some c -> as_num bv = Some b -> num_sub c b = Ret n ->
  field_delta A B slot = Ret (Some (DNum (num_round n 4))).
Proof.
  intros Hc Hb Ec Eb Hs. unfold field_delta, getattr.
  rewrite Hc, Hb. simpl. rewrite Ec, Eb, Hs. reflexivity.
Qed.

Lemma field_delta_map_intro A B slot c b :
  dict_get slot A = Some (VDict c) -> dict_get slot B = Some (VDict b) ->
  field_delta A B slot = (m <- nested_delta c b ;; Ret (Some (DMap m))).
Proof.
  intros Hc Hb. unfold field_delta, getattr. now rewrite Hc, Hb.
Qed.

Lemma field_delta_map A B slot m :
  field_delta A B slot = Ret (Some (DMap m)) ->
  exists c b,
    dict_get slot A = Some (VDict c) /\ dict_get slot B = Some (VDict b) /\
    nested_delta c b = Ret m.
Proof.
  unfold field_delta.
  destruct (getattr A slot) as [cv|] eqn:Hc; simpl; [|discriminate].
  destruct (getattr B slot) as [bv|] eqn:Hb; simpl; [|discriminate].
  apply getattr_get in Hc, Hb.
  destruct (as_num cv) as [c|] eqn:Ec, (as_num bv) as [b|] eqn:Eb.
  - destruct (num_sub c b); discriminate.
  - destruct cv; discriminate.
  - destruct cv; try discriminate; destruct bv; discriminate.
  - destruct cv as [| | | | | |c]; try discriminate;
      destruct bv as [| | | | | |b]; try discriminate.
    destruct (nested_delta c b) eqn:Hn; simpl; [|discriminate].
    intros [= <-]. eauto.
Qed.

(** Scenario of the specification: a baseline mean pitch of 180.0 Hz and a
    current one of 195.5 Hz deviate by 15.5. *)
Example pitch_scenario :
  compute_delta
    (Some (fill AudioAbstract_fields
             [("pitch", VDict [("mean_f0_hz", VFloat f_195_5)])]))
    (Some (fill AudioAbstract_fields
             [("pitch", VDict [("mean_f0_hz", VFloat f_180_0)])]))
  = Ret [("pitch", DMap [("mean_f0_hz", NFloat f_15_5)])].
Proof. reflexivity. Qed.

(** If either argument is absent the result is the empty mapping. *)
Lemma compute_delta_absent (a : option abstract) :
  compute_delta None a = Ret [] /\ compute_delta a None = Ret [].
Proof. split; [reflexivity|destruct a as [[|]|]; reflexivity]. Qed.

(** C6 (as amended): for all feature records A and B on which the engine
    returns in both directions, every numeric entry of compute_delta(A, B),
    at slot level and inside nested mappings, has a counterpart in
    compute_delta(B, A), and the two are opposite ([x == -y]) unless the
    entry is NaN. *)
Theorem C6_delta_antisymmetric_unless_nan
    (A B : abstract) (dA dB : dict dvalue) :
  compute_delta (Some A) (Some B) = Ret dA ->
  compute_delta (Some B) (Some A) = Ret dB ->
  (forall slot x,
     dict_get slot dA = Some (DNum x) ->
     exists y, dict_get slot dB = Some (DNum y) /\
       (num_is_nan x = false -> num_eqb x (num_neg y) = true))
  /\
  (forall slot m k x,
     dict_get slot dA = Some (DMap m) -> dict_get k m = Some x ->
     exists m' y,
       dict_get slot dB = Some (DMap m') /\ dict_get k m' = Some y /\
       (num_is_nan x = false -> num_eqb x (num_neg y) = true)).
Proof.
  intros HA HB. split.
  - intros slot x Hx.
    destruct (compute_delta_entry_nonempty _ _ _ _ _ HA Hx) as [HnA HnB].
    rewrite compute_delta_collect in HA, HB by assumption.
    destruct (collect_get _ _ _ _ _ _ HA Hx) as [Habs|[Hin Hf]];
      [discriminate|].
    apply field_delta_num in Hf.
    destruct Hf as (cv & bv & c & b & n & Hc & Hb & Ec & Eb & Hs & ->).
    destruct (num_sub_antisym _ _ _ Hs) as (y & Hy & Heq).
    exists (num_round y 4). split; [|exact Heq].
    apply (collect_has _ _ _ _ _ _ HB).
    + now apply (field_delta_num_intro B A slot bv cv b c y).
    + left. eapply dict_get_In; eauto.
  - intros slot m k x Hm Hx.
    destruct (compute_delta_entry_nonempty _ _ _ _ _ HA Hm) as [HnA HnB].
    rewrite compute_delta_collect in HA, HB by assumption.
    destruct (collect_get _ _ _ _ _ _ HA Hm) as [Habs|[Hin Hf]];
      [discriminate|].
    apply field_delta_map in Hf. destruct Hf as (c & b & Hc & Hb & Hn).
    assert (HinB : In slot (dict_keys B)) by (eapply dict_get_In; eauto).
    destruct (collect_body_returns _ _ _ _ _ HB HinB) as [o Ho].
    rewrite (field_delta_map_intro B A slot b c Hb Hc) in Ho.
    destruct (nested_delta b c) as [m'|] eqn:Hn'; simpl in Ho;
      [|discriminate].
    injection Ho as <-.
    unfold nested_delta in Hn, Hn'.
    rewrite nested_delta_keys_collect in Hn, Hn'.
    destruct (collect_get _ _ _ _ _ _ Hn Hx) as [Habs|[Hk Hkd]];
      [discriminate|].
    apply key_delta_some in Hkd.
    destruct Hkd as (ck & bk & n & Hck & Hbk & Hs & ->).
    destruct (py_sub_numeric _ _ _ Hs) as (cn & bn & Ecn & Ebn & Hsub).
    destruct (num_sub_antisym _ _ _ Hsub) as (y & Hy & Heq).
    exists m', (num_round y 4). repeat split; [| |exact Heq].
    + apply (collect_has _ _ _ _ _ _ HB).
      * rewrite (field_delta_map_intro B A slot b c Hb Hc).
        unfold nested_delta. rewrite nested_delta_keys_collect, Hn'.
        reflexivity.
      * now left.
    + apply (collect_has _ _ _ _ _ _ Hn').
      * apply (key_delta_intro b c k bk ck y Hbk Hck).
        unfold py_sub. now rewrite Ebn, Ecn.
      * left. eapply dict_get_In; eauto.
Qed.

(** *** A record against itself *)

Lemma key_delta_self_returns (c : dict value) (k : string) :
  In k (dict_keys c) -> exists o, key_delta c c k = Ret o.
Proof.
  intros Hin. destruct (dict_In_get _ _ Hin) as [ck Hck].
  unfold key_delta, getitem, dict_mem. rewrite Hck. simpl.
  unfold is_numeric, py_sub. destruct (as_num ck) as [n|]; simpl; eauto.
  destruct (num_sub_self n) as [z ->]. simpl. eauto.
Qed.

Lemma nested_delta_self_returns (c : dict value) :
  exists m, nested_delta c c = Ret m.
Proof.
  unfold nested_delta. rewrite nested_delta_keys_collect.
  apply collect_returns. apply key_delta_self_returns.
Qed.

Lemma field_delta_self_returns (X : abstract) (slot : string) :
  In slot (dict_keys X) -> exists o, field_delta X X slot = Ret o.
Proof.
  intros Hin. destruct (dict_In_get _ _ Hin) as [v Hv].
  unfold field_delta, getattr. rewrite Hv. simpl.
  destruct (as_num v) as [n|] eqn:En.
  - destruct (num_sub_self n) as [z ->]. simpl. eauto.
  - destruct v; eauto.
    destruct (nested_delta_self_returns d) as [m ->]. simpl. eauto.
Qed.

Lemma compute_delta_self_returns (X : abstract) :
  exists d, compute_delta (Some X) (Some X) = Ret d.
Proof.
  destruct X as [|x X]; [simpl; eauto|].
  rewrite compute_delta_collect by discriminate.
  apply collect_returns. apply field_delta_self_returns.
Qed.

(** C7 (as amended): for every feature record X, compute_delta(X, X)
    returns; every slot of X that holds a finite number (neither NaN nor an
    infinity) has a zero entry, and every slot that holds a nested mapping
    has a nested entry in which each key with a finite numeric value is
    zero. *)
Theorem C7_delta_self_zero_on_finite (X : abstract) :
  exists d,
    compute_delta (Some X) (Some X) = Ret d /\
    (forall slot v n,
       dict_get slot X = Some v -> as_num v = Some n ->
       num_is_finite n = true ->
       exists z, dict_get slot d = Some (DNum z) /\ num_is_zero z = true) /\
    (forall slot m,
       dict_get slot X = Some (VDict m) ->
       exists dm,
         dict_get slot d = Some (DMap dm) /\
         forall k v n,
           dict_get k m = Some v -> as_num v = Some n ->
           num_is_finite n = true ->
           exists z, dict_get k dm = Some z /\ num_is_zero z = true).
Proof.
  destruct (compute_delta_self_returns X) as [d Hd].
  exists d. split; [exact Hd|]. split.
  - intros slot v n Hv En Hfin.
    assert (HX : X <> []) by (intros ->; discriminate).
    rewrite compute_delta_collect in Hd by assumption.
    destruct (num_sub_self n) as [z Hz].
    exists (num_round z 4). split; [|now apply (num_sub_diag n)].
    apply (collect_has _ _ _ _ _ _ Hd).
    + now apply (field_delta_num_intro X X slot v v n n z).
    + left. eapply dict_get_In; eauto.
  - intros slot m Hm.
    assert (HX : X <> []) by (intros ->; discriminate).
    rewrite compute_delta_collect in Hd by assumption.
    destruct (nested_delta_self_returns m) as [dm Hdm].
    exists dm. split.
    + apply (collect_has _ _ _ _ _ _ Hd).
      * rewrite (field_delta_map_intro X X slot m m Hm Hm), Hdm.
        reflexivity.
      * left. eapply dict_get_In; eauto.
    + intros k v n Hv En Hfin.
      unfold nested_delta in Hdm. rewrite nested_delta_keys_collect in Hdm.
      destruct (num_sub_self n) as [z Hz].
      exists (num_round z 4). split; [|now apply (num_sub_diag n)].
      apply (collect_has _ _ _ _ _ _ Hdm).
      * apply (key_delta_intro m m k v v z Hv Hv).
        unfold py_sub. now rewrite En.
      * left. eapply dict_get_In; eauto.
Qed.

(** The amended C6 at a concrete pair of records: a float slot against an
    int slot, and a nested mean pitch; both deviate by 15.5 one way and by
    its opposite the other way. *)
Lemma C6_witness :
  exists dA dB,
    compute_delta (Some Scenario.pitch_195) (Some Scenario.pitch_180) = Ret dA
    /\ compute_delta (Some Scenario.pitch_180) (Some Scenario.pitch_195)
       = Ret dB
    /\ dict_get "melody" dA = Some (DNum (NFloat f_15_5))
    /\ (exists y, dict_get "melody" dB = Some (DNum y) /\
          num_eqb (NFloat f_15_5) (num_neg y) = true)
    /\ (exists m' y,
          dict_get "pitch" dB = Some (DMap m') /\
          dict_get "mean_f0_hz" m' = Some y /\
          num_eqb (NFloat f_15_5) (num_neg y) = true).
Proof.
  eexists. eexists.
  split; [reflexivity|]. split; [reflexivity|]. split; [reflexivity|].
  destruct (C6_delta_antisymmetric_unless_nan
              Scenario.pitch_195 Scenario.pitch_180 _ _ eq_refl eq_refl)
    as [Hslot Hnested].
  split.
  - destruct (Hslot "melody" (NFloat f_15_5) eq_refl) as (y & Hy & Heq).
    exists y. split; [exact Hy|]. apply Heq. reflexivity.
  - destruct (Hnested "pitch" [("mean_f0_hz", NFloat f_15_5)] "mean_f0_hz"
                (NFloat f_15_5) eq_refl eq_refl)
      as (m' & y & Hm' & Hy & Heq).
    exists m', y. split; [exact Hm'|]. split; [exact Hy|].
    apply Heq. reflexivity.
Defined.

(** C6 as stated fails on NaN entries.  Two records whose slot is infinite
    deviate by NaN in both directions, and a NaN nested value gives a NaN
    nested entry; NaN is not equal to its opposite. *)
Lemma C6_counterexample :
  compute_delta (Some Scenario.melody_inf) (Some Scenario.melody_inf)
  = Ret [("melody", DNum (NFloat f_nan))]
  /\ compute_delta (Some Scenario.intensity_nan) (Some Scenario.intensity_100)
     = Ret [("intensity", DMap [("mean_db", NFloat f_nan)])]
  /\ compute_delta (Some Scenario.intensity_100) (Some Scenario.intensity_nan)
     = Ret [("intensity", DMap [("mean_db", NFloat f_nan)])]
  /\ num_eqb (NFloat f_nan) (num_neg (NFloat f_nan)) = false.
Proof. repeat split; reflexivity. Qed.

(** The amended C7 at a concrete record: the slot holding 195.5 and the
    nested mean pitch both deviate by zero from themselves. *)
Lemma C7_witness :
  exists d,
    compute_delta (Some Scenario.pitch_195) (Some Scenario.pitch_195) = Ret d
    /\ (exists z, dict_get "melody" d = Some (DNum z) /\ num_is_zero z = true)
    /\ (exists dm z,
          dict_get "pitch" d = Some (DMap dm) /\
          dict_get "mean_f0_hz" dm = Some z /\ num_is_zero z = true).
Proof.
  destruct (C7_delta_self_zero_on_finite Scenario.pitch_195)
    as (d & Hd & Hslot & Hnested).
  exists d. split; [exact Hd|]. split.
  - apply (Hslot "melody" (VFloat f_195_5) (NFloat f_195_5));
      reflexivity.
  - destruct (Hnested "pitch" [("mean_f0_hz", VFloat f_195_5)] eq_refl)
      as (dm & Hdm & Hkeys).
    destruct (Hkeys "mean_f0_hz" (VFloat f_195_5) (NFloat f_195_5)
                eq_refl eq_refl eq_refl) as (z & Hz & Hzero).
    exists dm, z. auto.
Defined.

(** C7 as stated fails on slots that are not finite: an infinite slot, and
    a NaN nested value, deviate from themselves by NaN, which is not zero. *)
Lemma C7_counterexample :
  dict_get "melody" Scenario.melody_inf = Some (VFloat f_inf)
  /\ is_numeric (VFloat f_inf) = true
  /\ compute_delta (Some Scenario.melody_inf) (Some Scenario.melody_inf)
     = Ret [("melody", DNum (NFloat f_nan))]
  /\ compute_delta (Some Scenario.intensity_nan) (Some Scenario.intensity_nan)
     = Ret [("intensity", DMap [("mean_db", NFloat f_nan)])]
  /\ num_is_zero (NFloat f_nan) = false.
Proof. repeat split; reflexivity. Qed.

(** *** Nested mappings *)

(** When the nested case returns, its entries are the rounded differences
    of the keys that both mappings have with a number on both sides. *)
Lemma nested_delta_entries (c_val b_val : dict value) (m : dict num) :
  nested_delta c_val b_val = Ret m ->
  forall k x,
    dict_get k m = Some x <->
    exists ck bk cn bn n,
      dict_get k c_val = Some ck /\ dict_get k b_val = Some bk /\
      as_num ck = Some cn /\ as_num bk = Some bn /\
      num_sub cn bn = Ret n /\ x = num_round n 4.
Proof.
  unfold nested_delta. rewrite nested_delta_keys_collect.
  intros Hm k x. split.
  - intros Hx.
    destruct (collect_get _ _ _ _ _ _ Hm Hx) as [Habs|[_ Hk]];
      [discriminate|].
    apply key_delta_some in Hk.
    destruct Hk as (ck & bk & n & Hc & Hb & Hs & ->).
    destruct (py_sub_numeric _ _ _ Hs) as (cn & bn & Ec & Eb & Hsub).
    exists ck, bk, cn, bn, n. auto 7.
  - intros (ck & bk & cn & bn & n & Hc & Hb & Ec & Eb & Hs & ->).
    apply (collect_has _ _ _ _ _ _ Hm).
    + apply (key_delta_intro _ _ _ ck bk n Hc Hb).
      unfold py_sub. now rewrite Ec, Eb.
    + left. eapply dict_get_In; eauto.
Qed.

(** A key whose current value is a number and whose baseline value is not
    makes the nested case raise: the comprehension tests the current side
    only. *)
Lemma nested_delta_raises (c_val b_val : dict value) k ck bk :
  dict_get k c_val = Some ck -> dict_get k b_val = Some bk ->
  is_numeric ck = true -> is_numeric bk = false ->
  returns (nested_delta c_val b_val) = false.
Proof.
  intros Hc Hb Nc Nb.
  destruct (nested_delta c_val b_val) as [m|e] eqn:Hm; [|reflexivity].
  unfold nested_delta in Hm. rewrite nested_delta_keys_collect in Hm.
  assert (Hin : In k (dict_keys c_val)) by (eapply dict_get_In; eauto).
  destruct (collect_body_returns _ _ _ _ _ Hm Hin) as [o Ho].
  unfold key_delta, getitem, dict_mem in Ho. rewrite Hc in Ho.
  simpl in Ho. rewrite Hb, Nc in Ho. simpl in Ho.
  unfold py_sub, is_numeric in *.
  destruct (as_num ck); [|discriminate].
  destruct (as_num bk); discriminate.
Qed.

(** C3: on a nested slot whose key holds a number in the current record and
    [None] in the baseline, the engine raises [TypeError] instead of
    dropping the key; the same two values held directly by a slot are
    dropped without error. *)
Theorem C3_nested_non_numeric_baseline_raises :
  compute_delta (Some Scenario.pitch_only_195) (Some Scenario.pitch_unvoiced)
  = Raise (Exn TypeError
             "unsupported operand type(s) for -: 'float' and 'NoneType'")
  /\ compute_delta (Some Scenario.pitch_unvoiced)
       (Some Scenario.pitch_only_195)
     = Ret [("pitch", DMap [])]
  /\ compute_delta (Some Scenario.melody_195) (Some Scenario.melody_unset)
     = Ret [].
Proof. repeat split; reflexivity. Qed.

(** ** The text analyser *)

Module TextFacts.

Import TextAnalyser.

Lemma contraction_not_alnum (w : string) :
  Str.isalnum w = true -> str_in w _CONTRACTIONS = false.
Proof.
  intros Hw. destruct (str_in w _CONTRACTIONS) eqn:E; [|reflexivity].
  apply existsb_exists in E. destruct E as (c & Hin & Heq).
  apply String.eqb_eq in Heq. subst c.
  assert (Hall : forallb (fun c => negb (Str.isalnum c)) _CONTRACTIONS = true)
    by reflexivity.
  rewrite forallb_forall in Hall. specialize (Hall w Hin).
  rewrite Hw in Hall. discriminate.
Qed.

Lemma filter_excluded {A : Type} (p q : A -> bool) (l : list A) :
  (forall x, q x = true -> p x = false) -> filter p (filter q l) = [].
Proof.
  intros H. induction l as [|x l IH]; simpl; auto.
  destruct (q x) eqn:Hq; simpl; auto. now rewrite (H x Hq).
Qed.

(** No token kept by the constructor is a contraction: the kept tokens are
    alphanumeric and every contraction has an apostrophe. *)
Lemma no_contraction_among_words (svc : TextServices) (text : string) :
  count_if (fun w => str_in w _CONTRACTIONS) (words (init svc text)) = 0.
Proof.
  unfold count_if, init. cbn [words].
  rewrite (filter_excluded _ _ _ contraction_not_alnum). reflexivity.
Qed.

Lemma zero_over_not_positive (y : float) :
  Float.ltb f_0_0 (Float.div (Float.of_Z 0) y) = false.
Proof. destruct y as [s|s| |s m e]; reflexivity. Qed.

(** The contraction rate is never positive, whatever the text and the
    tokenizer. *)
Lemma contraction_rate_never_positive (svc : TextServices) (text : string) :
  Float.ltb f_0_0 (_get_contraction_rate (init svc text)) = false.
Proof.
  unfold _get_contraction_rate. rewrite no_contraction_among_words.
  destruct (word_count (init svc text) >? 0); [|reflexivity].
  apply zero_over_not_positive.
Qed.

End TextFacts.

(** C4: on the text of the scenario, tokenized as NLTK does, the analyser
    keeps the five words i, so, tired, lol, lol; vocabulary-diversity is
    4/5 = 0.8 and slang-rate is 2/5 > 0, as claimed; Contraction-rate is
    0.0, not positive, since no kept word is the contraction. *)
Theorem C4_scenario_contraction_rate_is_zero
    (svc : TextAnalyser.TextServices) :
  TextAnalyser.word_tokenize svc "i'm so tired lol, lol!"
  = ["i"; "'m"; "so"; "tired"; "lol"; ","; "lol"; "!"] ->
  let a := TextAnalyser.init svc "I'm so tired lol, lol!" in
  TextAnalyser.words a = ["i"; "so"; "tired"; "lol"; "lol"]
  /\ TextAnalyser.word_count a = 5
  /\ TextAnalyser._get_diversity a = f_0_8
  /\ TextAnalyser._get_slang_rate a = f_0_4
  /\ Float.ltb f_0_0 (TextAnalyser._get_slang_rate a) = true
  /\ TextAnalyser._get_contraction_rate a = f_0_0
  /\ Float.ltb f_0_0 (TextAnalyser._get_contraction_rate a) = false.
Proof.
  intros Htok a.
  assert (Hw : TextAnalyser.words a = ["i"; "so"; "tired"; "lol"; "lol"]).
  { subst a. unfold TextAnalyser.init. cbn [TextAnalyser.words].
    change (Str.lower "I'm so tired lol, lol!") with "i'm so tired lol, lol!".
    rewrite Htok. reflexivity. }
  assert (Hc : TextAnalyser.word_count a = 5).
  { change (TextAnalyser.word_count a)
      with (Z.of_nat (List.length (TextAnalyser.words a))).
    rewrite Hw. reflexivity. }
  unfold TextAnalyser._get_diversity, TextAnalyser._get_slang_rate,
    TextAnalyser._get_contraction_rate.
  rewrite Hw, Hc. repeat split; reflexivity.
Qed.

Lemma C4_witness :
  let a := TextAnalyser.init Scenario.text_svc "I'm so tired lol, lol!" in
  TextAnalyser.words a = ["i"; "so"; "tired"; "lol"; "lol"]
  /\ TextAnalyser.word_count a = 5
  /\ TextAnalyser._get_diversity a = f_0_8
  /\ TextAnalyser._get_slang_rate a = f_0_4
  /\ Float.ltb f_0_0 (TextAnalyser._get_slang_rate a) = true
  /\ TextAnalyser._get_contraction_rate a = f_0_0
  /\ Float.ltb f_0_0 (TextAnalyser._get_contraction_rate a) = false.
Proof.
  apply (C4_scenario_contraction_rate_is_zero Scenario.text_svc).
  reflexivity.
Defined.

(** ** The audio analyser *)

Module AudioFacts.

Import AudioAnalyser.

(** The body of the [try] block returns exactly when every measurement is
    obtained and the duration is not zero, and then it returns the report
    of what was measured. *)
Lemma analysis_body_returns (svc : AudioServices) (self : Analyser) d :
  analysis_body svc self = Ret d <->
  exists c rate mean_db max_db,
    measure svc (audio_path self) = Ret c
    /\ Float.is_zero (duration c) = false
    /\ truediv_int_float (peaks c) (duration c) = Ret rate
    /\ intensity_mean svc (audio_path self) = Ret mean_db
    /\ intensity_max svc (audio_path self) = Ret max_db
    /\ d = report c rate mean_db max_db.
Proof.
  unfold analysis_body. split.
  - destruct (measure svc (audio_path self)) as [c|]; [|discriminate].
    cbn [bind].
    destruct (truediv_int_float (peaks c) (duration c)) as [rate|] eqn:Hr;
      [|discriminate].
    cbn [bind].
    destruct (intensity_mean svc (audio_path self)) as [mean_db|];
      [|discriminate].
    cbn [bind].
    destruct (intensity_max svc (audio_path self)) as [max_db|];
      [|discriminate].
    cbn [bind]. intros [= <-].
    exists c, rate, mean_db, max_db. repeat split; auto.
    unfold truediv_int_float in Hr.
    destruct (float_of_int (peaks c)); [|discriminate]. cbn [bind] in Hr.
    destruct (Float.is_zero (duration c)); [discriminate|reflexivity].
  - intros (c & rate & mean_db & max_db & Hc & _ & Hr & Hmean & Hmax & ->).
    rewrite Hc. cbn [bind]. rewrite Hr. cbn [bind].
    rewrite Hmean. cbn [bind]. rewrite Hmax. reflexivity.
Qed.

Lemma get_analysis_cases (svc : AudioServices) (self : Analyser) :
  (exists msg, get_analysis svc self = [("error", VStr msg)])
  \/ (exists c rate mean_db max_db,
        measure svc (audio_path self) = Ret c
        /\ Float.is_zero (duration c) = false
        /\ get_analysis svc self = report c rate mean_db max_db).
Proof.
  unfold get_analysis.
  destruct (analysis_body svc self) as [d|e] eqn:Hb.
  - right. apply analysis_body_returns in Hb.
    destruct Hb as (c & rate & mean_db & max_db & Hc & Hz & _ & _ & _ & ->).
    eauto 8.
  - left. eauto.
Qed.

End AudioFacts.

(** ** Degenerate inputs *)

(** C5 as stated fails on a degenerate audio input.  A file without samples
    is not loaded: the constructor raises, before any metric is computed,
    and the call of the assembler raises with it; nothing is marked as
    absent. *)
Lemma C5_counterexample :
  AudioAnalyser.path_exists Scenario.audio_svc "empty.wav" = true
  /\ AudioAnalyser.init Scenario.audio_svc "empty.wav"
     = Raise (Exn ExternalError "audio file contains no samples")
  /\ extract_etoken Scenario.text_svc Scenario.audio_svc Scenario.float_repr
       None (Some "empty.wav") None
       (Some [("text", None); ("audio", Some Scenario.pitch_180)])
     = Raise (Exn ExternalError "audio file contains no samples").
Proof. repeat split; reflexivity. Qed.

(** C5 (as amended): for the empty text the diagnostics hold the absence
    marker for every metric.  For a non-empty text without words they hold
    0.0 for every rate over the word count and an empty mapping for the word
    preferences: each rate method guards a zero word count or character
    count by returning 0.0 (an empty mapping for the per-key frequencies).
    The audio analyser marks nothing as absent for a zero duration: a sound
    that cannot be loaded makes the constructor raise, and get_analysis
    returns either the single-key error mapping or a mapping whose syllabic
    rate is a float, computed from a duration that is not zero. *)
Theorem C5_degenerate_inputs
    (tsvc : TextAnalyser.TextServices) (asvc : AudioAnalyser.AudioServices) :
  (filter Str.isalnum (TextAnalyser.word_tokenize tsvc EmptyString) = [] ->
   TextAnalyser.get_diagnostics tsvc (TextAnalyser.init tsvc EmptyString)
   = map (fun k => (k, VNone)) TextAnalyser.diagnostic_keys)
  /\ (forall c t,
        let self := TextAnalyser.init tsvc (String c t) in
        let d := TextAnalyser.get_diagnostics tsvc self in
        TextAnalyser.word_count self = 0 ->
        dict_get "vocabulary-diversity" d = Some (VFloat f_0_0)
        /\ dict_get "word-preferences" d = Some (VDict [])
        /\ dict_get "slang-rate" d = Some (VFloat f_0_0)
        /\ dict_get "Idiom-preferences" d = Some (VFloat f_0_0)
        /\ dict_get "Contraction-rate" d = Some (VFloat f_0_0)
        /\ dict_get "stop-words-rate" d = Some (VFloat f_0_0)
        /\ dict_get "typos-rate" d = Some (VFloat f_0_0)
        /\ dict_get "abbreviation-rate" d = Some (VFloat f_0_0))
  /\ (forall self,
        TextAnalyser.word_count self = 0 ->
        TextAnalyser._get_diversity self = f_0_0
        /\ TextAnalyser._get_prefs tsvc self = []
        /\ TextAnalyser._get_slang_rate self = f_0_0
        /\ TextAnalyser._get_idiom_rate self = f_0_0
        /\ TextAnalyser._get_contraction_rate self = f_0_0
        /\ TextAnalyser._get_stop_rate tsvc self = f_0_0
        /\ TextAnalyser._get_typos_rate tsvc self = f_0_0
        /\ TextAnalyser._get_abbreviation_rate tsvc self = f_0_0)
  /\ (forall self,
        TextAnalyser.char_count self = 0 ->
        TextAnalyser._get_cap_ratio self = f_0_0
        /\ TextAnalyser._get_punc_freq self = []
        /\ TextAnalyser._get_emoji_rate self = f_0_0)
  /\ (forall path e,
        AudioAnalyser.path_exists asvc path = true ->
        AudioAnalyser.load_sound asvc path = Some e ->
        AudioAnalyser.init asvc path = Raise e)
  /\ (forall self,
        (exists msg,
           AudioAnalyser.get_analysis asvc self = [("error", VStr msg)])
        \/ (exists c rate,
              AudioAnalyser.measure asvc (AudioAnalyser.audio_path self)
              = Ret c
              /\ Float.is_zero (AudioAnalyser.duration c) = false
              /\ dict_get "rhythm" (AudioAnalyser.get_analysis asvc self)
                 = Some (VDict
                           [("syllabic_rate_proxy",
                             VFloat (Float.round rate 2));
                            ("total_duration_sec",
                             VFloat (Float.round (AudioAnalyser.duration c)
                                       2))]))).
Proof.
  assert (Hwords : forall self,
            TextAnalyser.word_count self = 0 ->
            TextAnalyser._get_diversity self = f_0_0
            /\ TextAnalyser._get_prefs tsvc self = []
            /\ TextAnalyser._get_slang_rate self = f_0_0
            /\ TextAnalyser._get_idiom_rate self = f_0_0
            /\ TextAnalyser._get_contraction_rate self = f_0_0
            /\ TextAnalyser._get_stop_rate tsvc self = f_0_0
            /\ TextAnalyser._get_typos_rate tsvc self = f_0_0
            /\ TextAnalyser._get_abbreviation_rate tsvc self = f_0_0).
  { intros self H.
    unfold TextAnalyser._get_diversity, TextAnalyser._get_prefs,
      TextAnalyser._get_slang_rate, TextAnalyser._get_idiom_rate,
      TextAnalyser._get_contraction_rate, TextAnalyser._get_stop_rate,
      TextAnalyser._get_typos_rate, TextAnalyser._get_abbreviation_rate.
    rewrite H. repeat split; reflexivity. }
  split; [|split; [|split; [|split; [|split]]]].
  - intros Hw. unfold TextAnalyser.get_diagnostics,
      TextAnalyser.nothing_to_analyse, TextAnalyser.init.
    cbn [TextAnalyser.words TextAnalyser.raw].
    change (Str.lower EmptyString) with EmptyString.
    now rewrite Hw.
  - intros c t self d H.
    destruct (Hwords self H) as (Hd & Hp & Hs & Hi & Hc & Hst & Hty & Hab).
    assert (Hn : TextAnalyser.nothing_to_analyse self = false).
    { unfold TextAnalyser.nothing_to_analyse. subst self.
      cbn [TextAnalyser.raw TextAnalyser.init].
      now destruct (TextAnalyser.words _). }
    subst d. unfold TextAnalyser.get_diagnostics.
    rewrite Hn, Hd, Hp, Hs, Hi, Hc, Hst, Hty, Hab.
    repeat split; reflexivity.
  - exact Hwords.
  - intros self H.
    unfold TextAnalyser._get_cap_ratio, TextAnalyser._get_punc_freq,
      TextAnalyser._get_emoji_rate.
    rewrite H. repeat split; reflexivity.
  - intros path e Hex Hload. unfold AudioAnalyser.init.
    now rewrite Hex, Hload.
  - intros self.
    destruct (AudioFacts.get_analysis_cases asvc self)
      as [Herr|(c & rate & mean_db & max_db & Hc & Hz & Hrep)]; [now left|].
    right. exists c, rate. rewrite Hrep. repeat split; auto.
Qed.

Lemma C5_witness :
  TextAnalyser.get_diagnostics Scenario.text_svc
    (TextAnalyser.init Scenario.text_svc EmptyString)
  = map (fun k => (k, VNone)) TextAnalyser.diagnostic_keys
  /\ dict_get "slang-rate"
       (TextAnalyser.get_diagnostics Scenario.text_svc
          (TextAnalyser.init Scenario.text_svc "!!!"))
     = Some (VFloat f_0_0)
  /\ TextAnalyser._get_cap_ratio
       (TextAnalyser.init Scenario.text_svc EmptyString) = f_0_0
  /\ AudioAnalyser.init Scenario.audio_svc "empty.wav"
     = Raise (Exn ExternalError "audio file contains no samples").
Proof.
  destruct (C5_degenerate_inputs Scenario.text_svc Scenario.audio_svc)
    as (Hempty & Hdiag & Hwords & Hchars & Hload & Haudio).
  split; [apply Hempty; reflexivity|].
  split; [apply (Hdiag "!"%char "!!"); reflexivity|].
  split; [apply (Hchars (TextAnalyser.init Scenario.text_svc EmptyString));
          reflexivity|].
  apply Hload; reflexivity.
Defined.

(** ** The assembler *)

Lemma collect_none {V : Type} (body : string -> result (option V))
    (keys : list string) (acc : dict V) :
  (forall k, In k keys -> body k = Ret None) ->
  collect body keys acc = Ret acc.
Proof.
  induction keys as [|k rest IH]; intros Hall; simpl; auto.
  rewrite (Hall k) by now left. simpl.
  apply IH. intros k' Hk'. apply Hall. now right.
Qed.

Lemma dict_get_unset (fields : list string) (f : string) :
  In f fields -> dict_get f (unset fields) = Some VNone.
Proof.
  induction fields as [|g fields IH]; simpl; [tauto|].
  intros [->|Hin].
  - now rewrite String.eqb_refl.
  - destruct (String.eqb f g); auto.
Qed.

Lemma dict_keys_unset (fields : list string) :
  dict_keys (unset fields) = fields.
Proof.
  unfold dict_keys, unset. rewrite map_map. simpl. apply map_id.
Qed.

(** An all-unset record deviates from nothing: against a baseline of its
    class the deviation mapping is empty. *)
Lemma compute_delta_unset (fields : list string) (b : option abstract) :
  has_fields fields b = true ->
  compute_delta (Some (unset fields)) b = Ret [].
Proof.
  intros Hb.
  destruct b as [[|x B]|]; [now destruct (unset fields)| |
                            now destruct (unset fields)].
  destruct fields as [|f fields]; [reflexivity|].
  rewrite compute_delta_collect by discriminate.
  rewrite dict_keys_unset. apply collect_none.
  intros k Hk. unfold field_delta, getattr.
  rewrite (dict_get_unset _ _ Hk). cbn [bind].
  unfold has_fields in Hb. rewrite forallb_forall in Hb.
  specialize (Hb k Hk).
  unfold dict_mem in Hb.
  destruct (dict_get k (x :: B)) as [bv|]; [|discriminate].
  cbn [bind as_num]. destruct (as_num bv); destruct bv; reflexivity.
Qed.

Lemma fill_no_keywords (fields : list string) : fill fields [] = unset fields.
Proof. reflexivity. Qed.

Ltac bind_inv H :=
  match type of H with
  | bind ?c _ = Ret _ =>
      let E := fresh "E" in
      destruct c eqn:E; simpl in H; [|discriminate H]
  end.

Section AssemblerFacts.

Variable tsvc : TextAnalyser.TextServices.
Variable asvc : AudioAnalyser.AudioServices.
Variable float_repr : float -> string.

Lemma bare_prefix_eq :
  delta_prefix float_repr [("text_deviation", []); ("audio_deviation", [])]
  = bare_prefix.
Proof. reflexivity. Qed.

Lemma current_text_not_supplied (text : option string) :
  supplied text = false -> current_text tsvc text = Ret None.
Proof. destruct text as [[|c t]|]; simpl; try discriminate; auto. Qed.

Lemma current_audio_not_supplied (audio_path : option string) :
  supplied audio_path = false -> current_audio asvc audio_path = Ret None.
Proof. destruct audio_path as [[|c t]|]; simpl; try discriminate; auto. Qed.

(** The class statement of [TextAbstract] raises; the other two classes
    are created. *)
Lemma text_class_rejected :
  Abstracts.TextAbstract = Raise (Exn ValueError invalid_field_name).
Proof. reflexivity. Qed.



Lemma default_base_raises :
  default_base = Raise (Exn ValueError invalid_field_name).
Proof. reflexivity. Qed.

Lemma resolve_base_cases (base_profiles : option profiles) :
  (exists b bs, base_profiles = Some (b :: bs)
                /\ resolve_base base_profiles = Ret (b :: bs))
  \/ ((base_profiles = None \/ base_profiles = Some [])
      /\ resolve_base base_profiles
         = Raise (Exn ValueError invalid_field_name)).
Proof.
  destruct base_profiles as [[|b bs]|]; [right|left|right]; eauto.
Qed.

(** A supplied text never yields a current text record: the class it would
    be an instance of does not exist. *)
Lemma current_text_supplied_raises (text : option string) :
  supplied text = true ->
  current_text tsvc text = Raise (Exn ValueError invalid_field_name).
Proof. destruct text as [[|c t]|]; simpl; try discriminate; auto. Qed.


Lemma init_missing_file (path : string) :
  AudioAnalyser.path_exists asvc path = false ->
  AudioAnalyser.init asvc path
  = Raise (Exn FileNotFoundError ("Source signal not found at " ++ path)).
Proof. intros H. unfold AudioAnalyser.init. now rewrite H. Qed.


Lemma has_modalities_inv (base : profiles) :
  has_modalities base = true ->
  exists bt ba, getitem base "text" = Ret bt /\ getitem base "audio" = Ret ba.
Proof.
  unfold has_modalities, dict_mem, getitem. intros H.
  apply andb_prop in H. destruct H as [Ht Ha].
  destruct (dict_get "text" base) as [bt|]; [|discriminate].
  destruct (dict_get "audio" base) as [ba|]; [|discriminate].
  eauto.
Qed.

End AssemblerFacts.

(** C1 as stated fails: with no text, a baseline and an audio path that
    names no file, the constructor of the audio analyser raises
    FileNotFoundError and the assembler returns no Token. *)
Lemma C1_counterexample :
  AudioAnalyser.path_exists Scenario.audio_svc "missing.wav" = false
  /\ extract_etoken Scenario.text_svc Scenario.audio_svc Scenario.float_repr
       None (Some "missing.wav") None
       (Some [("text", None); ("audio", Some Scenario.pitch_180)])
     = Raise (Exn FileNotFoundError "Source signal not found at missing.wav")
  /\ forall tok,
       extract_etoken Scenario.text_svc Scenario.audio_svc
         Scenario.float_repr None (Some "missing.wav") None
         (Some [("text", None); ("audio", Some Scenario.pitch_180)])
       <> Ret tok.
Proof. repeat split; try reflexivity. discriminate. Qed.

(** C1 (as amended): for every call whose audio path is non-empty and names
    a file that does not exist, the constructor of the audio analyser raises
    FileNotFoundError and no Token is returned, whatever the other
    arguments; when no text is supplied and the baseline is a supplied,
    non-empty mapping, that exception is the outcome of the call. *)
Theorem C1_missing_audio_file_propagates
    (tsvc : TextAnalyser.TextServices) (asvc : AudioAnalyser.AudioServices)
    (float_repr : float -> string)
    (text : option string) (c : ascii) (p : string)
    (video_path : option string) (base_profiles : option profiles) :
  AudioAnalyser.path_exists asvc (String c p) = false ->
  AudioAnalyser.init asvc (String c p)
  = Raise (Exn FileNotFoundError
             ("Source signal not found at " ++ String c p))
  /\ returns (extract_etoken tsvc asvc float_repr text (Some (String c p))
                video_path base_profiles) = false
  /\ (forall b bs,
        supplied text = false ->
        extract_etoken tsvc asvc float_repr text (Some (String c p))
          video_path (Some (b :: bs))
        = Raise (Exn FileNotFoundError
                   ("Source signal not found at " ++ String c p))).
Proof.
  intros Hmissing.
  pose proof (init_missing_file asvc (String c p) Hmissing) as Hinit.
  split; [exact Hinit|].
  unfold extract_etoken. split.
  - destruct (resolve_base base_profiles); [|reflexivity]. cbn [bind].
    destruct (current_text tsvc text); [|reflexivity].
    cbn [bind]. unfold current_audio. rewrite Hinit. reflexivity.
  - intros b bs Htext. cbn [resolve_base bind].
    rewrite (current_text_not_supplied tsvc text Htext).
    cbn [bind]. unfold current_audio. rewrite Hinit. reflexivity.
Qed.

Lemma C1_witness :
  AudioAnalyser.init Scenario.audio_svc "missing.wav"
  = Raise (Exn FileNotFoundError "Source signal not found at missing.wav")
  /\ returns (extract_etoken Scenario.text_svc Scenario.audio_svc
                Scenario.float_repr None (Some "missing.wav") None None)
     = false
  /\ extract_etoken Scenario.text_svc Scenario.audio_svc
       Scenario.float_repr None (Some "missing.wav") None
       (Some [("text", None); ("audio", Some Scenario.pitch_180)])
     = Raise (Exn FileNotFoundError "Source signal not found at missing.wav").
Proof.
  destruct (C1_missing_audio_file_propagates Scenario.text_svc
              Scenario.audio_svc Scenario.float_repr None
              "m"%char "issing.wav" None None eq_refl)
    as (Hinit & Hnone & Hexn).
  split; [exact Hinit|]. split; [exact Hnone|].
  apply Hexn. reflexivity.
Defined.




(** C8 (the code against the claim): a call with no text and no audio
    input raises ValueError when the baseline is absent or empty, because
    the default baseline needs an instance of TextAbstract, a class that
    namedtuple refuses for its hyphenated field names; no Token is
    returned.  What the claim describes is returned only on a supplied
    baseline with a text and an audio entry: a Token whose logical schema is
    the empty string, whose emotion schema is the bare deviation prefix and
    whose current abstract maps text and audio to absence; and no call
    without text and audio returns a Token of another shape. *)
Theorem C8_no_input_token
    (tsvc : TextAnalyser.TextServices) (asvc : AudioAnalyser.AudioServices)
    (float_repr : float -> string)
    (text audio_path video_path : option string) :
  supplied text = false ->
  supplied audio_path = false ->
  extract_etoken tsvc asvc float_repr text audio_path video_path None
  = Raise (Exn ValueError invalid_field_name)
  /\ extract_etoken tsvc asvc float_repr text audio_path video_path (Some [])
     = Raise (Exn ValueError invalid_field_name)
  /\ (forall b bs,
        has_modalities (b :: bs) = true ->
        extract_etoken tsvc asvc float_repr text audio_path video_path
          (Some (b :: bs))
        = Ret {| logical_schema := EmptyString;
                 emotion_schema := bare_prefix;
                 base_abstract := b :: bs;
                 current_abstract := [("text", None); ("audio", None)] |})
  /\ (forall base_profiles tok,
        extract_etoken tsvc asvc float_repr text audio_path video_path
          base_profiles = Ret tok ->
        logical_schema tok = EmptyString
        /\ emotion_schema tok = bare_prefix
        /\ current_abstract tok = [("text", None); ("audio", None)]).
Proof.
  intros Htext Haudio.
  assert (Hshape : forall base bt ba,
             getitem base "text" = Ret bt ->
             getitem base "audio" = Ret ba ->
             (curr_text <- current_text tsvc text ;;
              curr_audio <- current_audio asvc audio_path ;;
              base_text <- getitem base "text" ;;
              text_deviation <- compute_delta curr_text base_text ;;
              base_audio <- getitem base "audio" ;;
              audio_deviation <- compute_delta curr_audio base_audio ;;
              Ret {| logical_schema :=
                       match text with
                       | Some (String c t) => String c t
                       | _ => EmptyString
                       end;
                     emotion_schema :=
                       match text with
                       | Some (String c t) =>
                           delta_prefix float_repr
                             [("text_deviation", text_deviation);
                              ("audio_deviation", audio_deviation)]
                           ++ " " ++ String c t
                       | _ =>
                           delta_prefix float_repr
                             [("text_deviation", text_deviation);
                              ("audio_deviation", audio_deviation)]
                       end;
                     base_abstract := base;
                     current_abstract :=
                       [("text", curr_text); ("audio", curr_audio)] |})
             = Ret {| logical_schema := EmptyString;
                      emotion_schema := bare_prefix;
                      base_abstract := base;
                      current_abstract :=
                        [("text", None); ("audio", None)] |}).
  { intros base bt ba Hbt Hba.
    rewrite (current_text_not_supplied tsvc text Htext). cbn [bind].
    rewrite (current_audio_not_supplied asvc audio_path Haudio). cbn [bind].
    rewrite Hbt. cbn [bind].
    rewrite (proj1 (compute_delta_absent bt)). cbn [bind].
    rewrite Hba. cbn [bind].
    rewrite (proj1 (compute_delta_absent ba)). cbn [bind].
    rewrite bare_prefix_eq.
    destruct text as [[|c' t]|]; try discriminate; reflexivity. }
  split; [reflexivity|]. split; [reflexivity|]. split.
  - intros b bs Hbase.
    destruct (has_modalities_inv _ Hbase) as (bt & ba & Hbt & Hba).
    unfold extract_etoken. cbn [resolve_base bind].
    exact (Hshape (b :: bs) bt ba Hbt Hba).
  - intros base_profiles tok H. unfold extract_etoken in H.
    destruct (resolve_base base_profiles) as [base|]; [|discriminate H].
    cbn [bind] in H.
    rewrite (current_text_not_supplied tsvc text Htext) in H.
    cbn [bind] in H.
    rewrite (current_audio_not_supplied asvc audio_path Haudio) in H.
    cbn [bind] in H.
    destruct (getitem base "text") as [bt|] eqn:Hbt; [|discriminate H].
    cbn [bind] in H.
    rewrite (proj1 (compute_delta_absent bt)) in H. cbn [bind] in H.
    destruct (getitem base "audio") as [ba|] eqn:Hba; [|discriminate H].
    cbn [bind] in H.
    rewrite (proj1 (compute_delta_absent ba)) in H. cbn [bind] in H.
    injection H as <-. cbn [logical_schema emotion_schema current_abstract].
    rewrite bare_prefix_eq.
    destruct text as [[|c' t]|]; try discriminate; repeat split; reflexivity.
Qed.

Lemma C8_witness :
  extract_etoken Scenario.text_svc Scenario.audio_svc Scenario.float_repr
    None None None None
  = Raise (Exn ValueError invalid_field_name)
  /\ extract_etoken Scenario.text_svc Scenario.audio_svc
       Scenario.float_repr None None None
       (Some [("text", None); ("audio", Some Scenario.pitch_180)])
     = Ret {| logical_schema := EmptyString;
              emotion_schema := bare_prefix;
              base_abstract :=
                [("text", None); ("audio", Some Scenario.pitch_180)];
              current_abstract := [("text", None); ("audio", None)] |}.
Proof.
  destruct (C8_no_input_token Scenario.text_svc Scenario.audio_svc
              Scenario.float_repr None None None eq_refl eq_refl)
    as (Habsent & _ & Hsupplied & _).
  split; [exact Habsent|].
  apply Hsupplied. reflexivity.
Defined.

(** C9: the video path has no effect.  Two calls that differ only in it have
    the same outcome; a returned Token has exactly the keys text and audio
    in its current abstract, and its emotion schema is built on a deviation
    summary with exactly the keys text_deviation and audio_deviation. *)
Theorem C9_video_path_ignored
    (tsvc : TextAnalyser.TextServices) (asvc : AudioAnalyser.AudioServices)
    (float_repr : float -> string)
    (text audio_path video_path video_path' : option string)
    (base_profiles : option profiles) :
  extract_etoken tsvc asvc float_repr text audio_path video_path
    base_profiles
  = extract_etoken tsvc asvc float_repr text audio_path video_path'
      base_profiles
  /\ forall tok,
       extract_etoken tsvc asvc float_repr text audio_path video_path
         base_profiles = Ret tok ->
       dict_keys (current_abstract tok) = ["text"; "audio"]
       /\ exists delta_a,
            dict_keys delta_a = ["text_deviation"; "audio_deviation"]
            /\ emotion_schema tok
               = match text with
                 | Some (String c t) =>
                     delta_prefix float_repr delta_a ++ " " ++ String c t
                 | _ => delta_prefix float_repr delta_a
                 end.
Proof.
  split; [reflexivity|].
  intros tok H. unfold extract_etoken in H.
  repeat bind_inv H. injection H as <-.
  cbn [current_abstract emotion_schema]. split; [reflexivity|].
  match goal with
  | Ht : compute_delta _ _ = Ret ?td, Ha : compute_delta _ _ = Ret ?ad |- _ =>
      exists [("text_deviation", td); ("audio_deviation", ad)]
  end.
  split; reflexivity.
Qed.

Lemma C9_witness :
  exists tok,
    extract_etoken Scenario.text_svc Scenario.audio_svc Scenario.float_repr
      None (Some "voice.wav") (Some "clip.mp4")
      (Some [("text", None); ("audio", Some Scenario.pitch_180)]) = Ret tok
    /\ extract_etoken Scenario.text_svc Scenario.audio_svc
         Scenario.float_repr None (Some "voice.wav") None
         (Some [("text", None); ("audio", Some Scenario.pitch_180)]) = Ret tok
    /\ dict_keys (current_abstract tok) = ["text"; "audio"]
    /\ exists delta_a,
         dict_keys delta_a = ["text_deviation"; "audio_deviation"]
         /\ emotion_schema tok = delta_prefix Scenario.float_repr delta_a.
Proof.
  eexists. split; [reflexivity|].
  destruct (C9_video_path_ignored Scenario.text_svc Scenario.audio_svc
              Scenario.float_repr None (Some "voice.wav")
              (Some "clip.mp4") None
              (Some [("text", None); ("audio", Some Scenario.pitch_180)]))
    as [Hsame Hkeys].
  split; [rewrite <- Hsame; reflexivity|].
  apply Hkeys. reflexivity.
Defined.

(** C10 (the code against the claim): an empty baseline mapping is treated
    as an absent one, and for both the default baseline is evaluated; but
    the default baseline cannot be built, because it starts with an instance
    of TextAbstract, a class that namedtuple refuses for its hyphenated
    field names.  Both calls raise that ValueError, whatever the other
    arguments, and return no Token. *)
Theorem C10_empty_baseline_is_default
    (tsvc : TextAnalyser.TextServices) (asvc : AudioAnalyser.AudioServices)
    (float_repr : float -> string)
    (text audio_path video_path : option string) :
  extract_etoken tsvc asvc float_repr text audio_path video_path (Some [])
  = extract_etoken tsvc asvc float_repr text audio_path video_path None
  /\ resolve_base (Some []) = default_base
  /\ resolve_base None = default_base
  /\ default_base = Raise (Exn ValueError invalid_field_name)
  /\ extract_etoken tsvc asvc float_repr text audio_path video_path (Some [])
     = Raise (Exn ValueError invalid_field_name)
  /\ (forall tok,
        extract_etoken tsvc asvc float_repr text audio_path video_path
          (Some []) <> Ret tok).
Proof.
  repeat split; try reflexivity. discriminate.
Qed.

(** * Further properties *)

(** ** Keys of a filled dictionary *)

Lemma dict_keys_set_inv {A : Type} (k x : string) (v : A) (d : dict A) :
  In x (dict_keys (dict_set k v d)) -> x = k \/ In x (dict_keys d).
Proof.
  induction d as [|[k' v'] d IH]; simpl.
  - intros [<-|[]]. now left.
  - destruct (String.eqb k k'); simpl; [tauto|].
    intros [<-|H]; [tauto|]. destruct (IH H); tauto.
Qed.

Lemma dict_keys_set_NoDup {A : Type} (k : string) (v : A) (d : dict A) :
  NoDup (dict_keys d) -> NoDup (dict_keys (dict_set k v d)).
Proof.
  induction d as [|[k' v'] d IH]; simpl; intros Hnd.
  - constructor; [tauto|constructor].
  - inversion Hnd as [|? ? Hnotin Hnd']; subst.
    destruct (String.eqb_spec k k'); simpl.
    + now constructor.
    + constructor; [|now apply IH].
      intros Hin. apply dict_keys_set_inv in Hin. destruct Hin; congruence.
Qed.

Lemma collect_keys {V : Type} (body : string -> result (option V))
    (keys : list string) (acc d : dict V) :
  collect body keys acc = Ret d ->
  NoDup (dict_keys acc) ->
  NoDup (dict_keys d)
  /\ forall x, In x (dict_keys d) -> In x keys \/ In x (dict_keys acc).
Proof.
  revert acc. induction keys as [|k rest IH]; intros acc; simpl.
  - intros [= <-] Hnd. auto.
  - destruct (body k) as [o|e]; simpl; [|discriminate].
    intros Hc Hnd.
    assert (Hnd' : NoDup (dict_keys
                     (match o with Some v => dict_set k v acc | None => acc end)))
      by (destruct o; [now apply dict_keys_set_NoDup|assumption]).
    destruct (IH _ Hc Hnd') as [Hd Hin]. split; [exact Hd|].
    intros x Hx. destruct (Hin x Hx) as [H|H]; [tauto|].
    destruct o; [|tauto].
    apply dict_keys_set_inv in H. destruct H; [subst; tauto|tauto].
Qed.

(** ** The engine, slot by slot *)

(** The entry of a slot in the result is what the loop body yields for it. *)
Lemma compute_delta_slot (A B : abstract) (d : dict dvalue) (slot : string) :
  compute_delta (Some A) (Some B) = Ret d ->
  A <> [] -> B <> [] -> In slot (dict_keys A) ->
  exists o, field_delta A B slot = Ret o /\ dict_get slot d = o.
Proof.
  intros Hd HA HB Hin. rewrite compute_delta_collect in Hd by assumption.
  destruct (collect_body_returns _ _ _ _ _ Hd Hin) as [o Ho].
  exists o. split; [exact Ho|].
  destruct o as [v|].
  - apply (collect_has _ _ _ _ _ _ Hd Ho). now left.
  - destruct (dict_get slot d) as [v|] eqn:Hg; [|reflexivity].
    destruct (collect_get _ _ _ _ _ _ Hd Hg) as [Habs|[_ Hf]];
      [discriminate|congruence].
Qed.

(** X1: the slots of a deviation mapping are distinct, and each is a field of
    both records. *)
Theorem X1_deviation_slots
    (current base : option abstract) (d : dict dvalue) :
  compute_delta current base = Ret d ->
  NoDup (dict_keys d)
  /\ forall slot,
       In slot (dict_keys d) ->
       exists A B,
         current = Some A /\ base = Some B /\
         In slot (dict_keys A) /\ In slot (dict_keys B).
Proof.
  intros Hd.
  destruct current as [[|a A]|], base as [[|b B]|];
    try (injection Hd as <-; split; [constructor|intros ? []]).
  pose proof Hd as Hc.
  rewrite compute_delta_collect in Hc by discriminate.
  destruct (collect_keys _ _ _ _ Hc (NoDup_nil _)) as [Hnd Hin].
  split; [exact Hnd|].
  intros slot Hslot. exists (a :: A), (b :: B).
  destruct (Hin slot Hslot) as [HA|[]].
  repeat split; auto.
  destruct (dict_In_get _ _ Hslot) as [v Hv].
  destruct (collect_get _ _ _ _ _ _ Hc Hv) as [Habs|[_ Hf]]; [discriminate|].
  destruct v as [x|m].
  - apply field_delta_num in Hf.
    destruct Hf as (cv & bv & _ & _ & _ & _ & Hb & _).
    eapply dict_get_In; eauto.
  - apply field_delta_map in Hf. destruct Hf as (c & b' & _ & Hb & _).
    eapply dict_get_In; eauto.
Qed.

Lemma X1_witness :
  exists d,
    compute_delta (Some Scenario.pitch_195) (Some Scenario.pitch_180) = Ret d
    /\ dict_keys d = ["pitch"; "melody"]
    /\ NoDup (dict_keys d)
    /\ exists A B,
         Some Scenario.pitch_195 = Some A /\ Some Scenario.pitch_180 = Some B
         /\ In "melody" (dict_keys A) /\ In "melody" (dict_keys B).
Proof.
  eexists. split; [reflexivity|]. split; [reflexivity|].
  destruct (X1_deviation_slots (Some Scenario.pitch_195)
              (Some Scenario.pitch_180) _ eq_refl) as [Hnd Hin].
  split; [exact Hnd|]. apply (Hin "melody"). right. left. reflexivity.
Defined.

(** X2: when the engine returns, a slot that both records have is in the
    result exactly in two cases: both values are numbers, and the entry is
    their difference rounded to four places; or both are mappings, and the
    entry is the nested deviation.  In every other case (a side unset, a
    string, a list, a number against a mapping) the slot is omitted. *)
Theorem X2_slot_entry
    (A B : abstract) (d : dict dvalue) (slot : string) (cv bv : value) :
  compute_delta (Some A) (Some B) = Ret d ->
  dict_get slot A = Some cv ->
  dict_get slot B = Some bv ->
  match as_num cv, as_num bv with
  | Some c, Some b =>
      exists n, num_sub c b = Ret n
                /\ dict_get slot d = Some (DNum (num_round n 4))
  | _, _ =>
      match cv, bv with
      | VDict c, VDict b =>
          exists m, nested_delta c b = Ret m
                    /\ dict_get slot d = Some (DMap m)
      | _, _ => dict_get slot d = None
      end
  end.
Proof.
  intros Hd Hc Hb.
  assert (HA : A <> []) by (intros ->; discriminate).
  assert (HB : B <> []) by (intros ->; discriminate).
  assert (Hin : In slot (dict_keys A)) by (eapply dict_get_In; eauto).
  destruct (compute_delta_slot A B d slot Hd HA HB Hin) as (o & Ho & <-).
  unfold field_delta, getattr in Ho. rewrite Hc, Hb in Ho. cbn [bind] in Ho.
  destruct (as_num cv) as [c|], (as_num bv) as [b|].
  - destruct (num_sub c b) as [n|]; [|discriminate].
    injection Ho as <-. eauto.
  - destruct cv, bv; try (now injection Ho as <-);
      destruct (nested_delta _ _) as [m|]; try discriminate;
      injection Ho as <-; eauto.
  - destruct cv, bv; try (now injection Ho as <-);
      destruct (nested_delta _ _) as [m|]; try discriminate;
      injection Ho as <-; eauto.
  - destruct cv, bv; try (now injection Ho as <-);
      destruct (nested_delta _ _) as [m|]; try discriminate;
      injection Ho as <-; eauto.
Qed.

Lemma X2_witness :
  exists d,
    compute_delta (Some Scenario.pitch_195) (Some Scenario.pitch_180) = Ret d
    /\ (exists n, num_sub (NFloat f_195_5) (NInt 180) = Ret n
                  /\ dict_get "melody" d = Some (DNum (num_round n 4)))
    /\ dict_get "cords" d = None.
Proof.
  eexists. split; [reflexivity|]. split.
  - exact (X2_slot_entry Scenario.pitch_195 Scenario.pitch_180 _ "melody"
             (VFloat f_195_5) (VInt 180) eq_refl eq_refl eq_refl).
  - exact (X2_slot_entry Scenario.pitch_195 Scenario.pitch_180 _ "cords"
             VNone VNone eq_refl eq_refl eq_refl).
Defined.

(** X3: when the nested case returns, its keys are exactly the keys that
    both mappings have with a number on both sides, each with the difference
    of the two numbers rounded to four places; a key of one side only, or
    without a number in the current mapping, contributes nothing. *)
Theorem X3_nested_entries
    (c_val b_val : dict value) (m : dict num) (k : string) (x : num) :
  nested_delta c_val b_val = Ret m ->
  (dict_get k m = Some x <->
   exists ck bk cn bn n,
     dict_get k c_val = Some ck /\ dict_get k b_val = Some bk /\
     as_num ck = Some cn /\ as_num bk = Some bn /\
     num_sub cn bn = Ret n /\ x = num_round n 4).
Proof.
  unfold nested_delta. rewrite nested_delta_keys_collect.
  intros Hm. split.
  - intros Hx.
    destruct (collect_get _ _ _ _ _ _ Hm Hx) as [Habs|[_ Hk]];
      [discriminate|].
    apply key_delta_some in Hk.
    destruct Hk as (ck & bk & n & Hc & Hb & Hs & ->).
    destruct (py_sub_numeric _ _ _ Hs) as (cn & bn & Ec & Eb & Hsub).
    exists ck, bk, cn, bn, n. auto 7.
  - intros (ck & bk & cn & bn & n & Hc & Hb & Ec & Eb & Hs & ->).
    apply (collect_has _ _ _ _ _ _ Hm).
    + apply (key_delta_intro _ _ _ ck bk n Hc Hb).
      unfold py_sub. now rewrite Ec, Eb.
    + left. eapply dict_get_In; eauto.
Qed.

Lemma X3_witness :
  dict_get "mean_db"
    [("mean_db", NFloat (Float.round (Float.sub f_100_0 f_180_0) 4))]
  = Some (NFloat (Float.round (Float.sub f_100_0 f_180_0) 4))
  <->
  exists ck bk cn bn n,
    dict_get "mean_db"
      [("mean_db", VFloat f_100_0); ("max_db", VFloat f_195_5);
       ("label", VStr "loud")] = Some ck
    /\ dict_get "mean_db"
         [("mean_db", VFloat f_180_0); ("min_db", VFloat f_0_4);
          ("label", VStr "calm")] = Some bk
    /\ as_num ck = Some cn /\ as_num bk = Some bn
    /\ num_sub cn bn = Ret n
    /\ NFloat (Float.round (Float.sub f_100_0 f_180_0) 4) = num_round n 4.
Proof.
  apply (X3_nested_entries
           [("mean_db", VFloat f_100_0); ("max_db", VFloat f_195_5);
            ("label", VStr "loud")]
           [("mean_db", VFloat f_180_0); ("min_db", VFloat f_0_4);
            ("label", VStr "calm")]).
  reflexivity.
Defined.

(** X4: a nested slot with a key that holds a number in the current record
    and anything but a number in the baseline makes the engine raise,
    whatever the other slots hold. *)
Theorem X4_non_numeric_nested_baseline_raises
    (A B : abstract) (slot k : string) (c b : dict value) (ck bk : value) :
  dict_get slot A = Some (VDict c) ->
  dict_get slot B = Some (VDict b) ->
  dict_get k c = Some ck -> dict_get k b = Some bk ->
  is_numeric ck = true -> is_numeric bk = false ->
  returns (compute_delta (Some A) (Some B)) = false.
Proof.
  intros HA HB Hc Hb Nc Nb.
  destruct (compute_delta (Some A) (Some B)) as [d|e] eqn:Hd; [|reflexivity].
  pose proof (X := nested_delta_raises c b k ck bk Hc Hb Nc Nb).
  assert (HnA : A <> []) by (intros ->; discriminate).
  assert (HnB : B <> []) by (intros ->; discriminate).
  assert (Hin : In slot (dict_keys A)) by (eapply dict_get_In; eauto).
  destruct (compute_delta_slot A B d slot Hd HnA HnB Hin) as (o & Ho & _).
  rewrite (field_delta_map_intro A B slot c b HA HB) in Ho.
  destruct (nested_delta c b); [discriminate X|discriminate Ho].
Qed.

Lemma X4_witness :
  returns (compute_delta (Some Scenario.pitch_only_195)
             (Some Scenario.pitch_unvoiced)) = false.
Proof.
  apply (X4_non_numeric_nested_baseline_raises
           Scenario.pitch_only_195 Scenario.pitch_unvoiced
           "pitch" "mean_f0_hz"
           [("mean_f0_hz", VFloat f_195_5)] [("mean_f0_hz", VNone)]
           (VFloat f_195_5) VNone); reflexivity.
Defined.

Lemma compute_delta_unset_baseline (fields : list string) (A : abstract) :
  (forall slot, In slot (dict_keys A) -> In slot fields) ->
  compute_delta (Some A) (Some (unset fields)) = Ret [].
Proof.
  intros Hsub. destruct A as [|a A]; [reflexivity|].
  destruct fields as [|f fields].
  { exfalso. apply (Hsub (fst a)). now left. }
  rewrite compute_delta_collect by discriminate.
  apply collect_none. intros k Hk.
  destruct (dict_In_get _ _ Hk) as [cv Hcv].
  unfold field_delta, getattr.
  rewrite Hcv, (dict_get_unset _ _ (Hsub k Hk)). cbn [bind as_num].
  destruct (as_num cv); destruct cv; reflexivity.
Qed.

(** X5: an all-unset record deviates from nothing and nothing deviates
    from it.  Against an all-unset baseline the deviation mapping of every
    record with fields of the baseline is empty, and so is that of an
    all-unset current record against every baseline that has its fields. *)
Theorem X5_unset_record_gives_no_deviation
    (fields : list string) (A : abstract) (b : option abstract) :
  ((forall slot, In slot (dict_keys A) -> In slot fields) ->
   compute_delta (Some A) (Some (unset fields)) = Ret [])
  /\ (has_fields fields b = true ->
      compute_delta (Some (unset fields)) b = Ret []).
Proof.
  split.
  - apply compute_delta_unset_baseline.
  - apply compute_delta_unset.
Qed.

Lemma X5_witness :
  compute_delta (Some Scenario.pitch_195)
    (Some (unset AudioAbstract_fields)) = Ret []
  /\ compute_delta (Some (unset AudioAbstract_fields))
       (Some Scenario.pitch_195) = Ret [].
Proof.
  destruct (X5_unset_record_gives_no_deviation AudioAbstract_fields
              Scenario.pitch_195 (Some Scenario.pitch_195)) as [Hbase Hcur].
  split.
  - apply Hbase. intros slot Hin. exact Hin.
  - apply Hcur. reflexivity.
Defined.

(** ** Building a record from a metric mapping *)

Lemma str_in_In (s : string) (l : list string) :
  str_in s l = true <-> In s l.
Proof.
  unfold str_in. rewrite existsb_exists. split.
  - intros (x & Hin & Heq). apply String.eqb_eq in Heq. now subst.
  - intros Hin. exists s. split; [exact Hin|apply String.eqb_refl].
Qed.

Lemma filtered_keys_are_fields (fields : list string) (raw : dict value) :
  forallb (fun k => str_in k fields)
    (dict_keys (filter (fun kv => str_in (fst kv) fields) raw)) = true.
Proof.
  induction raw as [|[k v] raw IH]; simpl; auto.
  destruct (str_in k fields) eqn:Hk; simpl; auto. now rewrite Hk.
Qed.

Lemma dict_get_filtered (fields : list string) (raw : dict value) f :
  In f fields ->
  dict_get f (filter (fun kv => str_in (fst kv) fields) raw) = dict_get f raw.
Proof.
  intros Hf. induction raw as [|[k v] raw IH]; simpl; auto.
  destruct (str_in k fields) eqn:Hk; simpl.
  - now rewrite IH.
  - destruct (String.eqb_spec f k); auto. subst.
    apply str_in_In in Hf. congruence.
Qed.

Lemma fill_filtered (fields : list string) (raw : dict value) :
  fill fields (filter (fun kv => str_in (fst kv) fields) raw)
  = fill fields raw.
Proof.
  unfold fill. apply map_ext_in. intros f Hf.
  now rewrite dict_get_filtered.
Qed.

Lemma dict_keys_fill (fields : list string) (kwargs : dict value) :
  dict_keys (fill fields kwargs) = fields.
Proof. unfold dict_keys, fill. rewrite map_map. apply map_id. Qed.

Lemma dict_get_fill (fields : list string) (kwargs : dict value) f :
  In f fields ->
  dict_get f (fill fields kwargs)
  = Some (match dict_get f kwargs with Some v => v | None => VNone end).
Proof.
  unfold fill. induction fields as [|g fields IH]; simpl; [tauto|].
  intros [->|Hin].
  - now rewrite String.eqb_refl.
  - destruct (String.eqb_spec f g); [now subst|auto].
Qed.

Lemma new_abstract_filtered (fields : list string) (raw : dict value) :
  new_abstract fields (filter (fun kv => str_in (fst kv) fields) raw)
  = Ret (fill fields raw).
Proof.
  unfold new_abstract.
  now rewrite filtered_keys_are_fields, fill_filtered.
Qed.

(** X6: a metric mapping narrowed to the fields of a class always builds a
    record, whatever keys it has: the record has exactly the fields of the
    class, in order, and each slot holds the value the mapping has for it,
    [None] when it has none.  Keys that are not fields are dropped. *)
Theorem X6_narrowed_mapping_builds_record
    (fields : list string) (raw : dict value) :
  new_abstract fields (filter (fun kv => str_in (fst kv) fields) raw)
  = Ret (fill fields raw)
  /\ dict_keys (fill fields raw) = fields
  /\ forall f,
       In f fields ->
       dict_get f (fill fields raw)
       = Some (match dict_get f raw with Some v => v | None => VNone end).
Proof.
  split; [apply new_abstract_filtered|].
  split; [apply dict_keys_fill|]. intros f. apply dict_get_fill.
Qed.

(** A keyword that is not a field makes the class raise TypeError, and a
    mapping whose keys are all fields never does. *)
Lemma new_abstract_returns_iff
    (fields : list string) (kwargs : dict value) :
  returns (new_abstract fields kwargs) = true
  <-> forall k, In k (dict_keys kwargs) -> In k fields.
Proof.
  unfold new_abstract.
  destruct (forallb _ _) eqn:Hall; simpl.
  - rewrite forallb_forall in Hall. split; [|reflexivity].
    intros _ k Hk. apply str_in_In. now apply Hall.
  - split; [discriminate|]. intros H. exfalso.
    assert (Hall' : forallb (fun k => str_in k fields) (dict_keys kwargs)
                    = true).
    { apply forallb_forall. intros k Hk. apply str_in_In. now apply H. }
    congruence.
Qed.

(** ** The assembler, beyond the scenarios *)

Section AssemblerMore.

Variable tsvc : TextAnalyser.TextServices.
Variable asvc : AudioAnalyser.AudioServices.
Variable float_repr : float -> string.


End AssemblerMore.



(** X9: a non-empty baseline mapping is used as it is, without a default for
    a modality it lacks.  On a call without text whose audio step succeeds,
    a baseline without a text entry raises KeyError for text, and one with a
    text entry but no audio entry raises KeyError for audio, even when no
    input is given at all; the message of the exception is the quoted
    key. *)
Theorem X9_baseline_without_modality_raises
    (tsvc : TextAnalyser.TextServices) (asvc : AudioAnalyser.AudioServices)
    (float_repr : float -> string)
    (text audio_path video_path : option string)
    (b : string * option abstract) (bs : profiles)
    (curr_audio : option abstract) :
  supplied text = false ->
  current_audio asvc audio_path = Ret curr_audio ->
  (dict_get "text" (b :: bs) = None ->
   extract_etoken tsvc asvc float_repr text audio_path video_path
     (Some (b :: bs)) = Raise (Exn KeyError "'text'"))
  /\ (dict_mem "text" (b :: bs) = true ->
      dict_get "audio" (b :: bs) = None ->
      extract_etoken tsvc asvc float_repr text audio_path video_path
        (Some (b :: bs)) = Raise (Exn KeyError "'audio'")).
Proof.
  intros Htext Haudio. unfold extract_etoken. cbn [resolve_base bind].
  rewrite (current_text_not_supplied tsvc text Htext). cbn [bind].
  rewrite Haudio. cbn [bind]. unfold getitem, dict_mem. split.
  - intros ->. reflexivity.
  - destruct (dict_get "text" (b :: bs)) as [bt|]; [|discriminate].
    intros _ ->. cbn [bind].
    rewrite (proj1 (compute_delta_absent bt)). reflexivity.
Qed.

Lemma X9_witness :
  extract_etoken Scenario.text_svc Scenario.audio_svc Scenario.float_repr
    None None None (Some [("audio", Some Scenario.pitch_180)])
  = Raise (Exn KeyError "'text'")
  /\ extract_etoken Scenario.text_svc Scenario.audio_svc Scenario.float_repr
       None None None (Some [("text", None)])
     = Raise (Exn KeyError "'audio'").
Proof.
  split.
  - apply (proj1 (X9_baseline_without_modality_raises Scenario.text_svc
                    Scenario.audio_svc Scenario.float_repr None None None
                    ("audio", Some Scenario.pitch_180) [] None
                    eq_refl eq_refl)).
    reflexivity.
  - apply (proj2 (X9_baseline_without_modality_raises Scenario.text_svc
                    Scenario.audio_svc Scenario.float_repr None None None
                    ("text", None) [] None eq_refl eq_refl));
      reflexivity.
Defined.

(** ** Rounding never produces NaN *)

Module FloatNaN.

Import Float.

Lemma shr_1_nonneg (mrs : shr_record) :
  0 <= shr_m mrs -> 0 <= shr_m (shr_1 mrs).
Proof.
  destruct mrs as [m r s]. destruct m as [|p|p]; simpl; try lia;
    destruct p; simpl; lia.
Qed.

Lemma iter_shr_1_nonneg (p : positive) (mrs : shr_record) :
  0 <= shr_m mrs -> 0 <= shr_m (iter_pos shr_1 p mrs).
Proof.
  revert mrs. induction p as [p IH|p IH|]; intros mrs H; simpl.
  - apply IH, IH. now apply shr_1_nonneg.
  - now apply IH, IH.
  - now apply shr_1_nonneg.
Qed.

Lemma shr_fexp_nonneg (m e : Z) (l : location) :
  0 <= m -> 0 <= shr_m (fst (shr_fexp prec emax m e l)).
Proof.
  intros H. unfold shr_fexp, shr.
  assert (H0 : 0 <= shr_m (shr_record_of_loc m l))
    by (destruct l as [|[]]; exact H).
  destruct (fexp prec emax (Zdigits2 m + e) - e); simpl; auto.
  now apply iter_shr_1_nonneg.
Qed.

Lemma round_nearest_even_nonneg (m : Z) (l : location) :
  0 <= m -> 0 <= round_nearest_even m l.
Proof.
  intros H. destruct l as [|[]]; simpl; try lia.
  destruct (Z.even m); lia.
Qed.

Lemma binary_round_aux_not_nan (s : bool) (m e : Z) (l : location) :
  0 <= m -> is_nan (binary_round_aux prec emax s m e l) = false.
Proof.
  intros H. unfold binary_round_aux.
  pose proof (shr_fexp_nonneg m e l H) as H1.
  destruct (shr_fexp prec emax m e l) as [mrs' e']. simpl in H1.
  pose proof (shr_fexp_nonneg
                (round_nearest_even (shr_m mrs') (loc_of_shr_record mrs'))
                e' loc_Exact (round_nearest_even_nonneg _ _ H1)) as H2.
  destruct (shr_fexp prec emax _ e' loc_Exact) as [mrs'' e'']. simpl in H2.
  destruct (shr_m mrs'') as [|q|q]; [reflexivity| |lia].
  match goal with |- context [Z.leb ?a ?b] => destruct (Z.leb a b) end;
    reflexivity.
Qed.

Lemma div_finite_not_nan (sx sy : bool) (mx my : positive) (ex ey : Z) :
  is_nan (div (S754_finite sx mx ex) (S754_finite sy my ey)) = false.
Proof.
  unfold div, SFdiv, SFdiv_core_binary.
  set (s := ex - ey - _).
  set (m' := match s with Zpos _ => Z.shiftl (Zpos mx) s
                        | Z0 => Zpos mx | Zneg _ => 0 end).
  assert (Hm' : 0 <= m').
  { subst m'. destruct s; try lia. apply Z.shiftl_nonneg. lia. }
  pose proof (Z_div_mod m' (Zpos my) eq_refl) as Hdiv.
  destruct (Z.div_eucl m' (Zpos my)) as [q r].
  apply binary_round_aux_not_nan. nia.
Qed.

Lemma is_nan_set_sign (s : bool) (x : float) :
  is_nan (set_sign s x) = is_nan x.
Proof. destruct x; reflexivity. Qed.

(** [round(x, n)] is NaN only when [x] is. *)
Lemma round_is_nan (x : float) (n : Z) : is_nan (round x n) = is_nan x.
Proof.
  destruct x as [s|s| |s m e]; try reflexivity. unfold round.
  destruct (match e with Zneg pe => _ | _ => _ end); try reflexivity;
    destruct (10 ^ n); try reflexivity.
  rewrite is_nan_set_sign. apply div_finite_not_nan.
Qed.

(** A product with a finite non-zero factor is NaN only when the other
    factor is. *)
Lemma mul_finite_is_nan (x : float) s m e :
  is_nan (mul x (S754_finite s m e)) = is_nan x.
Proof.
  destruct x as [sx|sx| |sx mx ex]; try reflexivity.
  unfold mul, SFmul. apply binary_round_aux_not_nan. lia.
Qed.

End FloatNaN.

(** X10: get_analysis returns either the single-key error mapping or a
    mapping with exactly the seven keys pitch, rhythm, timbre, accent,
    pronunciations, intensity and idiosyncrasies; the second only for a
    signal that was measured with a duration that is not zero. *)
Theorem X10_analysis_outcome
    (svc : AudioAnalyser.AudioServices) (self : AudioAnalyser.Analyser) :
  (exists msg, AudioAnalyser.get_analysis svc self = [("error", VStr msg)])
  \/ (dict_keys (AudioAnalyser.get_analysis svc self) = analysis_keys
      /\ exists c,
           AudioAnalyser.measure svc (AudioAnalyser.audio_path self) = Ret c
           /\ Float.is_zero (AudioAnalyser.duration c) = false).
Proof.
  destruct (AudioFacts.get_analysis_cases svc self)
    as [Herr|(c & rate & mean_db & max_db & Hc & Hz & ->)]; [now left|].
  right. split; [reflexivity|]. eauto.
Qed.

(** X11: the mean and deviation of the pitch, and the jitter and shimmer
    percentages, are never NaN in the analysis: a NaN measurement is stored
    as None, and rounding and scaling do not produce one. *)
Theorem X11_pitch_and_idiosyncrasies_never_nan
    (svc : AudioAnalyser.AudioServices) (self : AudioAnalyser.Analyser)
    (slot k : string) (m : dict value) (f : float) :
  slot = "pitch" \/ slot = "idiosyncrasies" ->
  dict_get slot (AudioAnalyser.get_analysis svc self) = Some (VDict m) ->
  dict_get k m = Some (VFloat f) ->
  Float.is_nan f = false.
Proof.
  intros Hslot Hm Hk.
  destruct (AudioFacts.get_analysis_cases svc self)
    as [[msg Herr]|(c & rate & mean_db & max_db & _ & _ & Hrep)].
  - rewrite Herr in Hm. destruct Hslot; subst slot; discriminate.
  - rewrite Hrep in Hm. unfold AudioAnalyser.report in Hm.
    destruct Hslot; subst slot; cbn [dict_get String.eqb Ascii.eqb
      Bool.eqb] in Hm; injection Hm as <-; cbn [dict_get] in Hk.
    + unfold AudioAnalyser.round_unless_nan in Hk.
      destruct (String.eqb k "mean_f0_hz").
      * destruct (Float.is_nan (AudioAnalyser.f0_mean c)) eqn:E;
          [discriminate|].
        injection Hk as <-. now rewrite FloatNaN.round_is_nan.
      * destruct (String.eqb k "stdev_f0_hz"); [|discriminate].
        destruct (Float.is_nan (AudioAnalyser.f0_std c)) eqn:E;
          [discriminate|].
        injection Hk as <-. now rewrite FloatNaN.round_is_nan.
    + destruct (String.eqb k "jitter_local_pct").
      * destruct (Float.is_nan (AudioAnalyser.jitter c)) eqn:E;
          [discriminate|].
        injection Hk as <-.
        unfold f_100_0.
        now rewrite FloatNaN.round_is_nan, FloatNaN.mul_finite_is_nan.
      * destruct (String.eqb k "shimmer_local_pct"); [|discriminate].
        destruct (Float.is_nan (AudioAnalyser.shimmer c)) eqn:E;
          [discriminate|].
        injection Hk as <-.
        unfold f_100_0.
        now rewrite FloatNaN.round_is_nan, FloatNaN.mul_finite_is_nan.
Qed.

Lemma X11_witness :
  Float.is_nan (Float.round f_195_5 2) = false.
Proof.
  apply (X11_pitch_and_idiosyncrasies_never_nan Scenario.answering_svc
           {| AudioAnalyser.audio_path := "voice.wav" |}
           "pitch" "mean_f0_hz"
           [("mean_f0_hz", VFloat (Float.round f_195_5 2));
            ("stdev_f0_hz", VFloat (Float.round f_15_5 2))]);
    [now left|reflexivity|reflexivity].
Defined.

(** X12: the intensity statistics are not guarded as the pitch is: when the
    analysis succeeds and Praat reports a NaN mean intensity, the mapping
    holds NaN under intensity, mean_db. *)
Theorem X12_nan_intensity_is_kept
    (svc : AudioAnalyser.AudioServices) (self : AudioAnalyser.Analyser)
    (c : AudioAnalyser.Core) (rate mean_db max_db : float) :
  AudioAnalyser.measure svc (AudioAnalyser.audio_path self) = Ret c ->
  AudioAnalyser.truediv_int_float (AudioAnalyser.peaks c)
    (AudioAnalyser.duration c) = Ret rate ->
  AudioAnalyser.intensity_mean svc (AudioAnalyser.audio_path self)
  = Ret mean_db ->
  AudioAnalyser.intensity_max svc (AudioAnalyser.audio_path self)
  = Ret max_db ->
  Float.is_nan mean_db = true ->
  exists m,
    dict_get "intensity" (AudioAnalyser.get_analysis svc self)
    = Some (VDict m)
    /\ dict_get "mean_db" m = Some (VFloat f_nan).
Proof.
  intros Hc Hr Hmean Hmax Hnan.
  unfold AudioAnalyser.get_analysis, AudioAnalyser.analysis_body.
  rewrite Hc. cbn [bind]. rewrite Hr. cbn [bind].
  rewrite Hmean. cbn [bind]. rewrite Hmax. cbn [bind].
  eexists. split; [reflexivity|].
  destruct mean_db; try discriminate. reflexivity.
Qed.

Lemma X12_witness :
  exists m,
    dict_get "intensity"
      (AudioAnalyser.get_analysis
         {| AudioAnalyser.path_exists := fun _ => true;
            AudioAnalyser.load_sound := fun _ => None;
            AudioAnalyser.measure := fun _ => Ret Scenario.voiced;
            AudioAnalyser.intensity_mean := fun _ => Ret f_nan;
            AudioAnalyser.intensity_max := fun _ => Ret f_100_0 |}
         {| AudioAnalyser.audio_path := "silence.wav" |})
    = Some (VDict m)
    /\ dict_get "mean_db" m = Some (VFloat f_nan).
Proof.
  apply (X12_nan_intensity_is_kept _ _ Scenario.voiced
           (Float.div (Float.of_Z 5) f_15_5) f_nan f_100_0);
    reflexivity.
Defined.

(** ** The current audio record *)

Lemma timbre_never_deviates (l : list value) (b : dict value) :
  nested_delta [("spectral_centroid_vectors", VList l)] b = Ret [].
Proof. reflexivity. Qed.

(** The slots of the record built from an analysis: five may hold a
    mapping, two a fixed string, and cords and melody nothing. *)
Lemma current_audio_slots
    (svc : AudioAnalyser.AudioServices) (self : AudioAnalyser.Analyser)
    (slot : string) (cv : value) :
  dict_get slot
    (fill AudioAbstract_fields (AudioAnalyser.get_analysis svc self))
  = Some cv ->
  is_numeric cv = false
  /\ (is_dict cv = true ->
      In slot ["pitch"; "rhythm"; "timbre"; "intensity"; "idiosyncrasies"])
  /\ (slot = "timbre" ->
      cv = VNone \/ exists l, cv = VDict [("spectral_centroid_vectors",
                                           VList l)])
  /\ (slot = "cords" \/ slot = "melody" -> cv = VNone).
Proof.
  intros Hcv.
  assert (Hin : In slot AudioAbstract_fields).
  { rewrite <- (dict_keys_fill AudioAbstract_fields
                  (AudioAnalyser.get_analysis svc self)).
    eapply dict_get_In; eauto. }
  rewrite (dict_get_fill _ _ _ Hin) in Hcv. injection Hcv as <-.
  destruct (AudioFacts.get_analysis_cases svc self)
    as [[msg ->]|(c & rate & mean_db & max_db & _ & _ & ->)];
    simpl in Hin;
    repeat (destruct Hin as [<-|Hin]; [cbn; intuition (try discriminate; eauto)|]);
    destruct Hin.
Qed.

(** X13: what an audio analysis can deviate in.  The deviation mapping of a
    record built from an analysis, against any baseline, has slots among
    pitch, rhythm, timbre, intensity and idiosyncrasies only, each with a
    nested mapping and never a plain number; accent, pronunciations, cords
    and melody never appear, and the timbre entry is always empty because
    its only value is a list. *)
Theorem X13_audio_deviation_shape
    (svc : AudioAnalyser.AudioServices) (self : AudioAnalyser.Analyser)
    (base : option abstract) (d : dict dvalue) :
  compute_delta
    (Some (fill AudioAbstract_fields (AudioAnalyser.get_analysis svc self)))
    base = Ret d ->
  forall slot v,
    dict_get slot d = Some v ->
    In slot ["pitch"; "rhythm"; "timbre"; "intensity"; "idiosyncrasies"]
    /\ (exists m, v = DMap m)
    /\ (slot = "timbre" -> v = DMap []).
Proof.
  intros Hd slot v Hv.
  destruct base as [B|];
    [|rewrite (proj2 (compute_delta_absent _)) in Hd;
      injection Hd as <-; discriminate Hv].
  destruct (compute_delta_entry_nonempty _ _ _ _ _ Hd Hv) as [HA HB].
  rewrite compute_delta_collect in Hd by assumption.
  destruct (collect_get _ _ _ _ _ _ Hd Hv) as [Habs|[_ Hf]]; [discriminate|].
  destruct v as [x|m].
  - apply field_delta_num in Hf.
    destruct Hf as (cv & bv & c & b & n & Hc & _ & Ec & _).
    destruct (current_audio_slots svc self slot cv Hc) as [Hnum _].
    unfold is_numeric in Hnum. rewrite Ec in Hnum. discriminate.
  - apply field_delta_map in Hf. destruct Hf as (c & b & Hc & _ & Hn).
    destruct (current_audio_slots svc self slot _ Hc)
      as (_ & Hdict & Htimbre & _).
    split; [now apply Hdict|]. split; [eauto|].
    intros Hslot.
    destruct (Htimbre Hslot) as [Habs|[l Hl]]; [discriminate Habs|].
    injection Hl as ->. rewrite timbre_never_deviates in Hn. congruence.
Qed.

Lemma X13_witness :
  exists d,
    compute_delta
      (Some (fill AudioAbstract_fields
               (AudioAnalyser.get_analysis Scenario.answering_svc
                  {| AudioAnalyser.audio_path := "voice.wav" |})))
      (Some (fill AudioAbstract_fields
               (AudioAnalyser.get_analysis Scenario.answering_svc
                  {| AudioAnalyser.audio_path := "voice.wav" |}))) = Ret d
    /\ dict_keys d = ["pitch"; "rhythm"; "timbre"; "intensity";
                      "idiosyncrasies"]
    /\ In "timbre" ["pitch"; "rhythm"; "timbre"; "intensity";
                    "idiosyncrasies"]
    /\ (exists m, DMap [] = DMap m)
    /\ ("timbre" = "timbre" -> DMap [] = DMap []).
Proof.
  eexists. split; [reflexivity|]. split; [reflexivity|].
  apply (X13_audio_deviation_shape Scenario.answering_svc
           {| AudioAnalyser.audio_path := "voice.wav" |}
           (Some (fill AudioAbstract_fields
                    (AudioAnalyser.get_analysis Scenario.answering_svc
                       {| AudioAnalyser.audio_path := "voice.wav" |})))
           _ eq_refl "timbre" (DMap [])).
  reflexivity.
Defined.

(** X14: run_analysis never raises and prints one of three documents: the
    status document with the reason when the analyser cannot be
    constructed (for a missing file, the reason names the path), the
    single-key error mapping when the analysis of an existing file fails,
    and the seven-key analysis otherwise. *)
Theorem X14_run_analysis_documents
    (svc : AudioAnalyser.AudioServices) (input_file : string) :
  let doc := AudioAnalyser.run_analysis svc input_file in
  (AudioAnalyser.path_exists svc input_file = false ->
   doc = [("status", VStr "failed");
          ("reason", VStr ("Source signal not found at " ++ input_file))])
  /\ (forall e,
        AudioAnalyser.path_exists svc input_file = true ->
        AudioAnalyser.load_sound svc input_file = Some e ->
        doc = [("status", VStr "failed"); ("reason", VStr (exn_str e))])
  /\ (AudioAnalyser.path_exists svc input_file = true ->
      AudioAnalyser.load_sound svc input_file = None ->
      doc = AudioAnalyser.get_analysis svc
              {| AudioAnalyser.audio_path := input_file |})
  /\ (dict_keys doc = ["status"; "reason"]
      \/ dict_keys doc = ["error"]
      \/ dict_keys doc = analysis_keys).
Proof.
  intros doc. subst doc. unfold AudioAnalyser.run_analysis, AudioAnalyser.init.
  destruct (AudioAnalyser.path_exists svc input_file); cbn [negb].
  - destruct (AudioAnalyser.load_sound svc input_file) as [e|]; cbn [bind].
    + repeat split; try discriminate; auto.
      intros e' _ [= <-]. reflexivity.
    + repeat split; try discriminate; auto.
      right.
      destruct (AudioFacts.get_analysis_cases svc
                  {| AudioAnalyser.audio_path := input_file |})
        as [[msg ->]|(c & rate & mean_db & max_db & _ & _ & ->)];
        [left|right]; reflexivity.
  - cbn [bind]. repeat split; try discriminate; auto.
Qed.

Lemma X14_witness :
  AudioAnalyser.run_analysis Scenario.audio_svc "missing.wav"
  = [("status", VStr "failed");
     ("reason", VStr "Source signal not found at missing.wav")]
  /\ AudioAnalyser.run_analysis Scenario.audio_svc "broken.wav"
     = [("error", VStr "unsupported format")].
Proof.
  destruct (X14_run_analysis_documents Scenario.audio_svc "missing.wav")
    as (Hmissing & _).
  destruct (X14_run_analysis_documents Scenario.audio_svc "broken.wav")
    as (_ & _ & Hloaded & _).
  split; [apply Hmissing; reflexivity|].
  rewrite Hloaded by reflexivity. reflexivity.
Defined.

(** ** The text analyser, beyond the scenario *)

Module TextMore.

Import TextAnalyser.

Lemma words_alnum (svc : TextServices) (text w : string) :
  In w (words (init svc text)) -> Str.isalnum w = true.
Proof. unfold init. cbn [words]. intros H. now apply filter_In in H. Qed.


Lemma lower_empty (s : string) :
  Str.lower s = EmptyString -> s = EmptyString.
Proof. destruct s; simpl; [reflexivity|discriminate]. Qed.

End TextMore.


(** X16: the words kept by the constructor are all alphanumeric, so none of
    them is a contraction: for every text and tokenizer the number of
    contraction matches is zero and Contraction-rate is never positive. *)
Theorem X16_contractions_never_match
    (svc : TextAnalyser.TextServices) (text : string) :
  (forall w, In w (TextAnalyser.words (TextAnalyser.init svc text)) ->
             Str.isalnum w = true)
  /\ TextAnalyser.count_if
       (fun w => str_in w TextAnalyser._CONTRACTIONS)
       (TextAnalyser.words (TextAnalyser.init svc text)) = 0
  /\ Float.ltb f_0_0
       (TextAnalyser._get_contraction_rate (TextAnalyser.init svc text))
     = false.
Proof.
  split; [intros w; apply TextMore.words_alnum|].
  split; [apply TextFacts.no_contraction_among_words|].
  apply TextFacts.contraction_rate_never_positive.
Qed.

(** X17: the whitelist has no empty entry: blank lines of the file are
    skipped, every other line is stripped and lowered; without the file the
    whitelist is empty. *)
Theorem X17_whitelist_entries
    (svc : TextAnalyser.TextServices) :
  (TextAnalyser.whitelist_file svc = None ->
   TextAnalyser._load_whitelist svc = [])
  /\ (forall w, In w (TextAnalyser._load_whitelist svc) ->
        w <> EmptyString
        /\ exists lines line,
             TextAnalyser.whitelist_file svc = Some lines
             /\ In line lines /\ w = Str.lower (Str.strip line)).
Proof.
  unfold TextAnalyser._load_whitelist. split.
  - intros ->. reflexivity.
  - intros w Hw.
    destruct (TextAnalyser.whitelist_file svc) as [lines|]; [|destruct Hw].
    apply in_map_iff in Hw. destruct Hw as (line & <- & Hline).
    apply filter_In in Hline. destruct Hline as [Hin Hne].
    split; [|eauto].
    intros Hempty. apply TextMore.lower_empty in Hempty.
    rewrite Hempty in Hne. discriminate.
Qed.

(** ** Values of the diagnostics *)

Module TextValues.

Import TextAnalyser.

Lemma floats_only_set (k : string) (f : float) (m : dict value) :
  floats_only m -> floats_only (dict_set k (VFloat f) m).
Proof.
  unfold floats_only. induction m as [|[k' v'] m IH]; simpl; intros H.
  - constructor; [reflexivity|constructor].
  - inversion H as [|? ? Hv Hm]; subst.
    destruct (String.eqb k k'); constructor; auto.
Qed.

Lemma floats_only_fold {X : Type} (key : X -> string) (val : X -> float)
    (l : list X) (acc : dict value) :
  floats_only acc ->
  floats_only
    (fold_left (fun d x => dict_set (key x) (VFloat (val x)) d) l acc).
Proof.
  revert acc. induction l as [|x l IH]; intros acc H; simpl; auto.
  apply IH. now apply floats_only_set.
Qed.

Lemma floats_only_forallb (m : dict value) :
  floats_only m -> forallb (fun kv => is_float (snd kv)) m = true.
Proof. intros H. apply forallb_forall. now apply Forall_forall. Qed.

Lemma prefs_floats (svc : TextServices) (self : Analyser) :
  floats_only (_get_prefs svc self).
Proof.
  unfold _get_prefs. destruct (word_count self >? 0); [|constructor].
  apply floats_only_fold. constructor.
Qed.

Lemma punc_freq_floats (self : Analyser) : floats_only (_get_punc_freq self).
Proof.
  unfold _get_punc_freq. destruct (char_count self >? 0); [|constructor].
  apply floats_only_fold. constructor.
Qed.

(** Every value of the diagnostics is unset, a string, a float or a mapping
    of floats. *)
Lemma diagnostics_values (svc : TextServices) (self : Analyser) :
  Forall (fun kv => text_metric (snd kv) = true) (get_diagnostics svc self).
Proof.
  unfold get_diagnostics. destruct (nothing_to_analyse self).
  - apply Forall_forall. intros kv Hin. apply in_map_iff in Hin.
    destruct Hin as (k & <- & _). reflexivity.
  - repeat constructor; simpl;
      apply floats_only_forallb;
      [apply prefs_floats|apply punc_freq_floats].
Qed.

End TextValues.

(** X18: what the diagnostics hold, for every text: each metric is unset, a
    string, a float or a mapping, and the two mappings, word-preferences
    and punctuation-frequency, hold floats only. *)
Theorem X18_diagnostics_value_types
    (svc : TextAnalyser.TextServices) (self : TextAnalyser.Analyser) :
  Forall (fun kv => text_metric (snd kv) = true)
    (TextAnalyser.get_diagnostics svc self)
  /\ floats_only (TextAnalyser._get_prefs svc self)
  /\ floats_only (TextAnalyser._get_punc_freq self).
Proof.
  split; [apply TextValues.diagnostics_values|].
  split; [apply TextValues.prefs_floats|apply TextValues.punc_freq_floats].
Qed.

(** X19: the absence marker is kept for the empty text.  For every
    non-empty text, even one without a single word, no metric of the
    diagnostics is None: each is a float, a mapping or a string. *)
Theorem X19_non_empty_text_has_no_unset_metric
    (svc : TextAnalyser.TextServices) (c : ascii) (t : string)
    (k : string) (v : value) :
  dict_get k
    (TextAnalyser.get_diagnostics svc
       (TextAnalyser.init svc (String c t))) = Some v ->
  v <> VNone.
Proof.
  unfold TextAnalyser.get_diagnostics, TextAnalyser.nothing_to_analyse.
  cbn [TextAnalyser.raw TextAnalyser.init].
  destruct (TextAnalyser.words _); cbn [dict_get];
    repeat (destruct (String.eqb k _); [intros [= <-]; discriminate|]);
    discriminate.
Qed.

Lemma X19_witness :
  VFloat f_0_0 <> VNone.
Proof.
  apply (X19_non_empty_text_has_no_unset_metric Scenario.text_svc
           "!"%char "!!" "slang-rate").
  reflexivity.
Defined.

(** ** Word preferences *)

Module Prefs.

Import TextAnalyser.

Lemma insert_by_count_In (x y : string * Z) (l : list (string * Z)) :
  In x (insert_by_count y l) -> x = y \/ In x l.
Proof.
  induction l as [|z l IH]; simpl.
  - intros [<-|[]]. now left.
  - destruct (snd z >? snd y); simpl.
    + intros [<-|H]; [tauto|]. destruct (IH H); tauto.
    + intros [<-|[<-|H]]; tauto.
Qed.

Lemma sorted_In (x : string * Z) (c : list (string * Z)) :
  In x (fold_right insert_by_count [] c) -> In x c.
Proof.
  induction c as [|y c IH]; simpl; [tauto|].
  intros H. apply insert_by_count_In in H. destruct H; [now left|auto].
Qed.

Lemma firstn_In {A : Type} (n : nat) (x : A) (l : list A) :
  In x (firstn n l) -> In x l.
Proof.
  revert l. induction n as [|n IH]; intros [|y l]; simpl; try tauto.
  intros [<-|H]; auto.
Qed.

Lemma counter_keys (l : list string) (acc : dict Z) (k : string) :
  In k (dict_keys (counter l acc)) -> In k l \/ In k (dict_keys acc).
Proof.
  revert acc. induction l as [|w l IH]; intros acc; simpl; [tauto|].
  intros H. destruct (IH _ H) as [H'|H']; [tauto|].
  apply dict_keys_set_inv in H'. destruct H'; [subst|]; tauto.
Qed.

Lemma fold_set_keys {X V : Type} (key : X -> string) (val : X -> V)
    (l : list X) (acc : dict V) (k : string) :
  In k (dict_keys (fold_left (fun d x => dict_set (key x) (val x) d) l acc))
  -> In k (map key l) \/ In k (dict_keys acc).
Proof.
  revert acc. induction l as [|x l IH]; intros acc; simpl; [tauto|].
  intros H. destruct (IH _ H) as [H'|H']; [tauto|].
  apply dict_keys_set_inv in H'. destruct H'; [subst|]; tauto.
Qed.

Lemma dict_set_length {V : Type} (k : string) (v : V) (d : dict V) :
  (List.length (dict_set k v d) <= S (List.length d))%nat.
Proof.
  induction d as [|[k' v'] d IH]; simpl; [lia|].
  destruct (String.eqb k k'); simpl; lia.
Qed.

Lemma fold_set_length {X V : Type} (key : X -> string) (val : X -> V)
    (l : list X) (acc : dict V) :
  (List.length (fold_left (fun d x => dict_set (key x) (val x) d) l acc)
   <= List.length l + List.length acc)%nat.
Proof.
  revert acc. induction l as [|x l IH]; intros acc; simpl; [lia|].
  specialize (IH (dict_set (key x) (val x) acc)).
  pose proof (dict_set_length (key x) (val x) acc). lia.
Qed.

End Prefs.

(** X20: word-preferences has at most three entries, and each of its keys is
    a kept word that is not a stop word. *)
Theorem X20_word_preferences
    (svc : TextAnalyser.TextServices) (self : TextAnalyser.Analyser) :
  (List.length (TextAnalyser._get_prefs svc self) <= 3)%nat
  /\ forall k,
       In k (dict_keys (TextAnalyser._get_prefs svc self)) ->
       In k (TextAnalyser.words self)
       /\ str_in k (TextAnalyser.stop_words svc) = false.
Proof.
  unfold TextAnalyser._get_prefs.
  destruct (TextAnalyser.word_count self >? 0);
    [|split; [simpl; lia|intros k []]].
  split.
  - etransitivity; [apply Prefs.fold_set_length|].
    cbn [List.length]. rewrite Nat.add_0_r.
    unfold TextAnalyser.most_common. apply firstn_le_length.
  - intros k Hk. apply Prefs.fold_set_keys in Hk.
    destruct Hk as [Hk|[]].
    apply in_map_iff in Hk. destruct Hk as ([w n] & <- & Hin).
    unfold TextAnalyser.most_common in Hin.
    apply Prefs.firstn_In, Prefs.sorted_In in Hin.
    assert (Hkey : In w (dict_keys
                     (TextAnalyser.counter
                        (filter (fun w => negb (str_in w
                                   (TextAnalyser.stop_words svc)))
                                (TextAnalyser.words self)) [])))
      by (apply in_map_iff; exists (w, n); auto).
    apply Prefs.counter_keys in Hkey. destruct Hkey as [Hkey|[]].
    apply filter_In in Hkey. destruct Hkey as [Hw Hstop].
    split; [exact Hw|]. simpl. now apply negb_true_iff in Hstop.
Qed.

(** ** Counts and denominators *)

Module Counts.

Import TextAnalyser.

Lemma filter_length {A : Type} (p : A -> bool) (l : list A) :
  (List.length (filter p l) <= List.length l)%nat.
Proof. induction l as [|x l IH]; simpl; [lia|destruct (p x); simpl; lia]. Qed.

Lemma filter_disjoint_length {A : Type} (p q : A -> bool) (l : list A) :
  (forall x, p x = true -> q x = false) ->
  (List.length (filter p l) + List.length (filter q l) <= List.length l)%nat.
Proof.
  intros H. induction l as [|x l IH]; simpl; [lia|].
  destruct (p x) eqn:Hp; [rewrite (H x Hp)|destruct (q x)]; simpl; lia.
Qed.

Lemma nodup_length (l : list string) :
  (List.length (nodup string_dec l) <= List.length l)%nat.
Proof.
  induction l as [|x l IH]; simpl; [lia|].
  destruct (in_dec string_dec x l); simpl; lia.
Qed.

Lemma count_if_bounds (p : string -> bool) (ws : list string) :
  0 <= count_if p ws <= Z.of_nat (List.length ws).
Proof. unfold count_if. pose proof (filter_length p ws). lia. Qed.

Lemma chars_length (s : string) :
  List.length (Str.chars s) = String.length s.
Proof. induction s; simpl; auto. Qed.

Lemma count_chars_bounds (p : ascii -> bool) (s : string) :
  0 <= Str.count_chars p s <= Str.len s.
Proof.
  unfold Str.count_chars, Str.len.
  pose proof (filter_length p (Str.chars s)). rewrite chars_length in H. lia.
Qed.

Lemma count_runs_bounds (p : ascii -> bool) (s : string) (inside : bool) :
  0 <= Str.count_runs p s inside <= Str.len s.
Proof.
  unfold Str.len. revert inside.
  induction s as [|c s IH]; intros inside; simpl; [lia|].
  destruct (p c).
  - specialize (IH true). destruct inside; lia.
  - specialize (IH false). lia.
Qed.

End Counts.

(** X21: each of these rates divides a count that lies between zero and the
    denominator: the distinct words, the slang words and the stop words
    never outnumber the words; a word counts at most once towards the
    abbreviation rate, as a whitelisted word or as a phonetic shorthand,
    never as both; and the capitals and the runs of non-ASCII characters
    never outnumber the characters. *)
Theorem X21_rate_counts_within_denominator
    (svc : TextAnalyser.TextServices) (text : string) :
  let a := TextAnalyser.init svc text in
  let wc := TextAnalyser.word_count a in
  let cc := TextAnalyser.char_count a in
  exists distinct slang stop abbr caps emojis,
    (0 <= distinct <= wc /\ 0 <= slang <= wc /\ 0 <= stop <= wc
     /\ 0 <= abbr <= wc /\ 0 <= caps <= cc /\ 0 <= emojis <= cc)
    /\ TextAnalyser._get_diversity a
       = (if wc >? 0 then TextAnalyser.truediv distinct wc else f_0_0)
    /\ TextAnalyser._get_slang_rate a
       = (if wc >? 0 then TextAnalyser.truediv slang wc else f_0_0)
    /\ TextAnalyser._get_stop_rate svc a
       = (if wc >? 0 then TextAnalyser.truediv stop wc else f_0_0)
    /\ TextAnalyser._get_abbreviation_rate svc a
       = (if wc =? 0 then f_0_0 else TextAnalyser.truediv abbr wc)
    /\ TextAnalyser._get_cap_ratio a
       = (if cc >? 0 then TextAnalyser.truediv caps cc else f_0_0)
    /\ TextAnalyser._get_emoji_rate a
       = (if cc >? 0 then TextAnalyser.truediv emojis cc else f_0_0).
Proof.
  intros a wc cc.
  assert (Hwc : wc = Z.of_nat (List.length (TextAnalyser.words a)))
    by reflexivity.
  assert (Hcc : cc = Str.len text) by reflexivity.
  eexists _, _, _, _, _, _.
  split; [|repeat split; reflexivity].
  rewrite Hwc, Hcc. repeat split;
    try apply Counts.count_if_bounds;
    try apply Counts.count_chars_bounds;
    try apply Counts.count_runs_bounds;
    try lia.
  - pose proof (Counts.nodup_length (TextAnalyser.words a)). lia.
  - unfold TextAnalyser.count_if. lia.
  - unfold TextAnalyser.count_if.
    match goal with
    | |- Z.of_nat (List.length (filter ?p ?l))
         + Z.of_nat (List.length (filter ?q ?l)) <= _ =>
        pose proof (Counts.filter_disjoint_length p q l) as H
    end.
    cbv beta in H.
    assert (Hdis : forall x : string,
               str_in x (TextAnalyser.whitelist a) = true ->
               negb (str_in x (TextAnalyser.whitelist a))
               && (Z.of_nat (String.length x) <=? 3)
               && negb (TextAnalyser.spell_known svc x)
               && existsb
                    (fun target =>
                       TextAnalyser.fuzz_ratio svc x target >? 70)
                    TextAnalyser._PHONETIC_TARGETS = false)
      by (intros x ->; reflexivity).
    specialize (H Hdis). lia.
Qed.

(** X22: when a Token is returned at all.  The class TextAbstract cannot be
    created, so a call returns a Token only if it supplies no text and a
    non-empty baseline, and that baseline has a text and an audio entry.
    The Token then carries the supplied baseline itself, an empty logical
    schema, no current text record, an empty text deviation and the prefix
    alone as its emotion schema. *)
Theorem X22_returned_token_shape
    (tsvc : TextAnalyser.TextServices) (asvc : AudioAnalyser.AudioServices)
    (float_repr : float -> string)
    (text audio_path video_path : option string)
    (base_profiles : option profiles) (tok : EToken) :
  extract_etoken tsvc asvc float_repr text audio_path video_path
    base_profiles = Ret tok ->
  supplied text = false
  /\ (exists b bs,
        base_profiles = Some (b :: bs) /\ base_abstract tok = b :: bs)
  /\ has_modalities (base_abstract tok) = true
  /\ logical_schema tok = EmptyString
  /\ dict_get "text" (current_abstract tok) = Some None
  /\ exists audio_deviation,
       emotion_schema tok
       = delta_prefix float_repr
           [("text_deviation", []); ("audio_deviation", audio_deviation)].
Proof.
  intros H. unfold extract_etoken in H.
  destruct (resolve_base_cases base_profiles) as [(b & bs & -> & _)|[_ Hr]];
    [|rewrite Hr in H; discriminate H].
  cbn [resolve_base bind] in H.
  destruct (supplied text) eqn:Htext;
    [rewrite (current_text_supplied_raises tsvc text Htext) in H;
     discriminate H|].
  rewrite (current_text_not_supplied tsvc text Htext) in H.
  cbn [bind] in H.
  destruct (current_audio asvc audio_path) as [curr_audio|];
    [|discriminate H].
  cbn [bind] in H.
  destruct (getitem (b :: bs) "text") as [bt|] eqn:Hbt; [|discriminate H].
  cbn [bind] in H.
  rewrite (proj1 (compute_delta_absent bt)) in H. cbn [bind] in H.
  destruct (getitem (b :: bs) "audio") as [ba|] eqn:Hba; [|discriminate H].
  cbn [bind] in H.
  destruct (compute_delta curr_audio ba) as [audio_deviation|];
    [|discriminate H].
  cbn [bind] in H. injection H as <-.
  cbn [logical_schema current_abstract base_abstract emotion_schema].
  split; [reflexivity|]. split; [eauto|]. split.
  { unfold has_modalities, dict_mem. unfold getitem in Hbt, Hba.
    destruct (dict_get "text" (b :: bs)); [|discriminate Hbt].
    destruct (dict_get "audio" (b :: bs)); [|discriminate Hba].
    reflexivity. }
  destruct text as [[|c t]|]; try discriminate Htext;
    (split; [reflexivity|]); (split; [reflexivity|]); eauto.
Qed.

Lemma X22_witness :
  exists tok,
    extract_etoken Scenario.text_svc Scenario.audio_svc Scenario.float_repr
      None (Some "voice.wav") None
      (Some [("text", None); ("audio", Some Scenario.pitch_180)]) = Ret tok
    /\ base_abstract tok
       = [("text", None); ("audio", Some Scenario.pitch_180)]
    /\ logical_schema tok = EmptyString
    /\ dict_get "text" (current_abstract tok) = Some None
    /\ exists audio_deviation,
         emotion_schema tok
         = delta_prefix Scenario.float_repr
             [("text_deviation", []);
              ("audio_deviation", audio_deviation)].
Proof.
  eexists. split; [reflexivity|].
  destruct (X22_returned_token_shape Scenario.text_svc Scenario.audio_svc
              Scenario.float_repr None (Some "voice.wav") None
              (Some [("text", None); ("audio", Some Scenario.pitch_180)])
              _ eq_refl) as (_ & _ & _ & Hlogical & Htext & Hschema).
  split; [reflexivity|].
  split; [exact Hlogical|]. split; [exact Htext|exact Hschema].
Defined.

(** X23: every key of punctuation-frequency is a one-character string whose
    character is a punctuation mark of the raw text. *)
Theorem X23_punctuation_keys
    (self : TextAnalyser.Analyser) (k : string) :
  In k (dict_keys (TextAnalyser._get_punc_freq self)) ->
  exists c,
    k = String c EmptyString /\ Str.ispunct c = true
    /\ In c (Str.chars (TextAnalyser.raw self)).
Proof.
  unfold TextAnalyser._get_punc_freq.
  destruct (TextAnalyser.char_count self >? 0); [|intros []].
  intros Hk. apply Prefs.fold_set_keys in Hk. destruct Hk as [Hk|[]].
  apply in_map_iff in Hk. destruct Hk as ([p n] & <- & Hin).
  assert (Hkey : In p (dict_keys
                   (TextAnalyser.counter
                      (map (fun c => String c EmptyString)
                         (filter Str.ispunct
                            (Str.chars (TextAnalyser.raw self)))) [])))
    by (apply in_map_iff; exists (p, n); auto).
  apply Prefs.counter_keys in Hkey. destruct Hkey as [Hkey|[]].
  apply in_map_iff in Hkey. destruct Hkey as (c & <- & Hc).
  apply filter_In in Hc. destruct Hc as [Hraw Hpunct].
  exists c. auto.
Qed.

Lemma X23_witness :
  exists c,
    "!" = String c EmptyString /\ Str.ispunct c = true
    /\ In c (Str.chars "I'm so tired lol, lol!").
Proof.
  apply (X23_punctuation_keys
           (TextAnalyser.init Scenario.text_svc "I'm so tired lol, lol!")
           "!").
  right. right. left. reflexivity.
Defined.
